(** * Serenibrain EEG live stream: frame decoder, channel buffers, start handshake

    A shallow embedding of [archive/eeg-scanner/live-stream.js]:
    the class [EEGStreamProcessor] ([decodePacket], [processPacket]) and the
    start sequence of [streamEEGData].

    Conventions of the embedding
    - a Node [Buffer] is a [list byte]; [data[i]] is [index data i], whose
      [None] is JavaScript's [undefined];
    - JavaScript numbers that the code only ever fills with integers
      (offsets, counters, raw ADC values, timestamps) are [Z]; the bitwise
      operators go through [ToInt32] as the language prescribes;
    - numbers that are genuinely binary64 (voltages, the configuration
      options) are Rocq's primitive [float]s, which are binary64 as well;
    - an integer-valued number that may also be [NaN] or infinite (the result
      of [%] and of [Math.floor]) is a [jsint];
    - exceptions are values of [Exception]; a call is a [completion];
    - [Date.now()] and the notifications delivered while the start sequence
      waits are inputs of the model;
    - console output is write-only and is left out. *)

From Stdlib Require Import String Ascii.
From Stdlib Require Import ZArith List Lia Bool Sorted.
From Stdlib Require Import Strings.Byte DecimalString.
From Stdlib Require Import PrimFloat FloatOps SpecFloat Uint63.
Import ListNotations.

Local Open Scope Z_scope.

(* ================================================================== *)
(** ** JavaScript numbers *)

Module JS.

(** [ToInt32]: reduction modulo 2^32 into the signed range. *)
Definition ToInt32 (z : Z) : Z := (z + 2 ^ 31) mod 2 ^ 32 - 2 ^ 31.

(** [a | b], [a & b], [a << n] on numbers holding integers. *)
Definition bor (a b : Z) : Z := ToInt32 (Z.lor (ToInt32 a) (ToInt32 b)).
Definition band (a b : Z) : Z := ToInt32 (Z.land (ToInt32 a) (ToInt32 b)).
Definition shl (a n : Z) : Z := ToInt32 (Z.shiftl (ToInt32 a) (n mod 32)).

(** An integer-valued JavaScript number, or one of the three special
    values. *)
Inductive jsint : Type :=
| JFin (z : Z)
| JPosInf
| JNegInf
| JNaN.

(** SameValueZero on [jsint], the key equality of [Map]: [NaN] is equal
    to itself. *)
Definition jsint_eqb (a b : jsint) : bool :=
  match a, b with
  | JFin x, JFin y => x =? y
  | JPosInf, JPosInf => true
  | JNegInf, JNegInf => true
  | JNaN, JNaN => true
  | _, _ => false
  end.

(** [a % b] for a non-negative integer [a] and a byte read by index:
    [undefined] and [0] both give [NaN]. *)
Definition rem (a : Z) (b : option Z) : jsint :=
  match b with
  | None => JNaN
  | Some d => if d =? 0 then JNaN else JFin (Z.rem a d)
  end.

(** [x === n] for an indexed byte [x] and a number literal [n]. *)
Definition strict_eq (x : option Z) (n : Z) : bool :=
  match x with
  | Some z => z =? n
  | None => false
  end.

(** [n > m] for an array length [n] against a [jsint]. *)
Definition length_gt (n : nat) (m : jsint) : bool :=
  match m with
  | JFin z => z <? Z.of_nat n
  | JPosInf => false
  | JNegInf => true
  | JNaN => false
  end.

(** The binary64 value of an integer; exact below 2^53, and used on the
    24-bit raw values only. *)
Definition float_of_Z (z : Z) : float :=
  match z with
  | Z0 => PrimFloat.zero
  | Zpos _ => PrimFloat.of_uint63 (Uint63.of_Z z)
  | Zneg p => PrimFloat.opp (PrimFloat.of_uint63 (Uint63.of_Z (Zpos p)))
  end.

(** Truthiness of a number: [0], [-0] and [NaN] are falsy. *)
Definition truthy (f : float) : bool :=
  negb (PrimFloat.is_zero f || PrimFloat.is_nan f).

(** [o || d] for an option that is a number or [undefined]. *)
Definition or_default (o : option float) (d : float) : float :=
  match o with
  | Some f => if truthy f then f else d
  | None => d
  end.

(** [Math.floor], read off the sign, mantissa and exponent of the
    argument. *)
Definition Math_floor (f : float) : jsint :=
  match Prim2SF f with
  | S754_zero _ => JFin 0
  | S754_infinity s => if s then JNegInf else JPosInf
  | S754_nan => JNaN
  | S754_finite s m e =>
      match e with
      | Z0 => JFin (if s then Zneg m else Zpos m)
      | Zpos _ => JFin (if s then - Z.shiftl (Zpos m) e else Z.shiftl (Zpos m) e)
      | Zneg k =>
          let q := Z.shiftr (Zpos m) (Zpos k) in
          let exact := Z.shiftl q (Zpos k) =? Zpos m in
          JFin (if s then (if exact then - q else - q - 1) else q)
      end
  end.

End JS.

Export JS.

(* ================================================================== *)
(** ** Node buffers *)

Definition Buffer : Type := list byte.

Definition byte_val (b : byte) : Z := Z.of_N (Byte.to_N b).

(** [data[i]]; [None] is [undefined]. *)
Definition index (data : Buffer) (i : nat) : option Z :=
  option_map byte_val (nth_error data i).

(** The number a bitwise operator sees in an indexed byte
    ([ToInt32(undefined)] is [0]). *)
Definition int_of_index (o : option Z) : Z :=
  match o with Some z => z | None => 0 end.

(** Exceptions the decoder can raise. *)
Inductive Exception : Type :=
| PacketTooShort (len : nat)
| ERR_OUT_OF_RANGE.

Definition message (e : Exception) : string :=
  match e with
  | PacketTooShort len =>
      ("Packet too short: " ++ NilZero.string_of_uint (Nat.to_uint len) ++ " bytes")%string
  | ERR_OUT_OF_RANGE => "The value of offset is out of range"%string
  end.

(** The outcome of a call: a value, an exception, or a loop that used up the
    fuel of the model. *)
Inductive completion (A : Type) : Type :=
| Normal (a : A)
| Throw (e : Exception)
| OutOfFuel.

Arguments Normal {A} a.
Arguments Throw {A} e.
Arguments OutOfFuel {A}.

Definition bind {A B : Type} (c : completion A) (k : A -> completion B) : completion B :=
  match c with
  | Normal a => k a
  | Throw e => Throw e
  | OutOfFuel => OutOfFuel
  end.

Notation "x <- c ;; k" := (bind c (fun x => k))
  (at level 61, c at next level, right associativity).

(** [data.readUInt16LE(off)] and [data.readUInt32LE(off)]: the whole field
    must lie inside the buffer. *)
Definition readUInt16LE (data : Buffer) (off : nat) : completion Z :=
  match nth_error data off, nth_error data (off + 1) with
  | Some b0, Some b1 => Normal (byte_val b0 + byte_val b1 * 2 ^ 8)
  | _, _ => Throw ERR_OUT_OF_RANGE
  end.

Definition readUInt32LE (data : Buffer) (off : nat) : completion Z :=
  match nth_error data off, nth_error data (off + 1),
        nth_error data (off + 2), nth_error data (off + 3) with
  | Some b0, Some b1, Some b2, Some b3 =>
      Normal (byte_val b0 + byte_val b1 * 2 ^ 8
              + byte_val b2 * 2 ^ 16 + byte_val b3 * 2 ^ 24)
  | _, _, _, _ => Throw ERR_OUT_OF_RANGE
  end.

(** [data.slice(s, e)] for non-negative bounds; both are clamped to the
    length. *)
Definition slice (data : Buffer) (s e : nat) : Buffer :=
  firstn (e - s) (skipn s data).

(** Decoding with ['ascii'] clears the top bit of every byte. *)
Definition ascii_char (b : byte) : ascii :=
  ascii_of_N (N.land (Byte.to_N b) 127).

(** [data.toString('ascii', s, e)]. *)
Definition toString_ascii (data : Buffer) (s e : nat) : string :=
  string_of_list_ascii (map ascii_char (slice data s e)).

Definition hex_digit (n : N) : ascii :=
  nth (N.to_nat n)
      (list_ascii_of_string "0123456789abcdef") "0"%char.

Definition hex_of_byte (b : byte) : list ascii :=
  [hex_digit (N.shiftr (Byte.to_N b) 4); hex_digit (N.land (Byte.to_N b) 15)].

(** [data.toString('hex')]. *)
Definition toString_hex (data : Buffer) : string :=
  string_of_list_ascii (flat_map hex_of_byte data).

(** [s.replace(/\0/g, '')]. *)
Fixpoint remove_nul (s : string) : string :=
  match s with
  | EmptyString => EmptyString
  | String c rest =>
      if Ascii.eqb c Ascii.zero then remove_nul rest else String c (remove_nul rest)
  end.

(* ================================================================== *)
(** ** The processor and its decoder *)

Record Sample : Type := mkSample {
  sampleNumber : Z;
  sampleIndex : Z;
  channel : jsint;
  rawValue : Z;
  voltageUv : float;
  rawHex : string
}.

Record Packet : Type := mkPacket {
  header : string;
  packetType : option Z;
  numChannels : option Z;
  payloadSize : Z;
  samples : list Sample;
  deviceModel : option string
}.

Record Entry : Type := mkEntry {
  time : Z;
  voltage : float
}.

Record Options : Type := mkOptions {
  opt_windowDuration : option float;
  opt_samplingRate : option float;
  opt_adcScale : option float
}.

Record EEGStreamProcessor : Type := mkProcessor {
  windowDuration : float;
  samplingRate : float;
  adcScale : float;
  channelBuffers : list (jsint * list Entry);
  maxBufferSamples : jsint;
  packetCount : Z;
  sampleCount : Z;
  startTime : option Z;
  lastAnalysisTime : list (jsint * Z);
  analysisInterval : Z
}.

(** [new EEGStreamProcessor(options)]. *)
Definition constructor (options : Options) : EEGStreamProcessor :=
  let windowDuration := or_default (opt_windowDuration options) 6.0%float in
  let samplingRate := or_default (opt_samplingRate options) 250.0%float in
  let adcScale := or_default (opt_adcScale options) 100.0%float in
  {| windowDuration := windowDuration;
     samplingRate := samplingRate;
     adcScale := adcScale;
     channelBuffers := [];
     maxBufferSamples :=
       Math_floor (PrimFloat.mul (PrimFloat.mul windowDuration samplingRate) 1.5%float);
     packetCount := 0;
     sampleCount := 0;
     startTime := None;
     lastAnalysisTime := [];
     analysisInterval := 2000 |}.

(** The 24-bit value at [offset], before sign extension (line 115). *)
Definition read_value (data : Buffer) (offset : nat) : Z :=
  bor (bor (int_of_index (index data offset))
           (shl (int_of_index (index data (offset + 1))) 8))
      (shl (int_of_index (index data (offset + 2))) 16).

(** Sign extension (lines 118-120). *)
Definition sign_extend (value : Z) : Z :=
  if band value 8388608 =? 0 then value else value - 16777216.

(** One iteration of the body of the [while] loop (lines 114-133). *)
Definition decode_sample (this : EEGStreamProcessor) (data : Buffer)
    (numChannels : option Z) (offset : nat) (sampleNumber : Z) : completion Sample :=
  let value := sign_extend (read_value data offset) in
  sampleIdx <- readUInt16LE data (offset + 4) ;;
  Normal {| sampleNumber := sampleNumber;
            sampleIndex := sampleIdx;
            channel := rem sampleIdx numChannels;
            rawValue := value;
            voltageUv := PrimFloat.div (float_of_Z value) (adcScale this);
            rawHex := toString_hex (slice data offset (offset + 7)) |}.

(** The [while] loop of lines 113-136; [acc] is [result.samples]. *)
Fixpoint decode_loop (fuel : nat) (this : EEGStreamProcessor) (data : Buffer)
    (numChannels : option Z) (offset : nat) (acc : list Sample)
    : completion (list Sample) :=
  match fuel with
  | O => OutOfFuel
  | S fuel' =>
      if Z.of_nat offset + 7 <=? Z.of_nat (length data) - 10 then
        s <- decode_sample this data numChannels offset (Z.of_nat (length acc)) ;;
        decode_loop fuel' this data numChannels (offset + 7) (acc ++ [s])
      else Normal acc
  end.

(** [decodePacket(data)] (lines 87-140). *)
Definition decodePacket (this : EEGStreamProcessor) (data : Buffer) : completion Packet :=
  if (length data <? 12)%nat then Throw (PacketTooShort (length data))
  else
    let header := toString_ascii data 0 4 in
    let packetType := index data 5 in
    let numChannels := index data 7 in
    payloadSize <- readUInt32LE data 8 ;;
    if strict_eq packetType 1 then
      Normal {| header := header; packetType := packetType;
                numChannels := numChannels; payloadSize := payloadSize;
                samples := [];
                deviceModel := Some (remove_nul (toString_ascii data 12 17)) |}
    else if strict_eq packetType 2 then
      samples <- decode_loop (S (length data)) this data numChannels 12 [] ;;
      Normal {| header := header; packetType := packetType;
                numChannels := numChannels; payloadSize := payloadSize;
                samples := samples; deviceModel := None |}
    else
      Normal {| header := header; packetType := packetType;
                numChannels := numChannels; payloadSize := payloadSize;
                samples := []; deviceModel := None |}.

(** Frames used in the examples below. *)
Definition default_processor : EEGStreamProcessor :=
  constructor {| opt_windowDuration := Some 6.0%float;
                 opt_samplingRate := Some 250.0%float;
                 opt_adcScale := Some 100.0%float |}.

Definition status_frame : Buffer :=
  [x44; x41; x54; x41; x00; x01; x00; x03; x20; x00; x00; x00;
   x54; x48; x32; x31].

(* ================================================================== *)
(** ** Maps keyed by channel *)

Section JsMap.

Context {V : Type}.

(** A [Map] keeps its entries in insertion order. *)
Definition JsMap : Type := list (jsint * V).

Fixpoint map_get (m : JsMap) (k : jsint) : option V :=
  match m with
  | [] => None
  | (k', v) :: rest => if jsint_eqb k' k then Some v else map_get rest k
  end.

(** [m.set(k, v)]: an existing key keeps its place. *)
Fixpoint map_set (m : JsMap) (k : jsint) (v : V) : JsMap :=
  match m with
  | [] => [(k, v)]
  | (k', v') :: rest =>
      if jsint_eqb k' k then (k', v) :: rest else (k', v') :: map_set rest k v
  end.

End JsMap.

Arguments JsMap V : clear implicits.

(* ================================================================== *)
(** ** Routing samples into the channel buffers *)

(** [buffer.push(e)] followed by the trim of lines 59-61. *)
Definition push_trim (maxBufferSamples : jsint) (buffer : list Entry) (e : Entry)
    : list Entry :=
  let buffer := buffer ++ [e] in
  if length_gt (length buffer) maxBufferSamples then tl buffer else buffer.

(** The body of the loop over [packet.samples] (lines 48-63).  The test
    [has(ch)] and the following [get(ch)] are one lookup here: a missing
    channel is entered with an empty buffer, which [get] then returns. *)
Definition add_sample (currentTime : Z) (this : EEGStreamProcessor) (sample : Sample)
    : EEGStreamProcessor :=
  let ch := channel sample in
  let '(buffer, lastAnalysisTime) :=
    match map_get (channelBuffers this) ch with
    | Some buffer => (buffer, lastAnalysisTime this)
    | None => ([], map_set (lastAnalysisTime this) ch currentTime)
    end in
  let buffer :=
    push_trim (maxBufferSamples this) buffer
      {| time := currentTime; voltage := voltageUv sample |} in
  {| windowDuration := windowDuration this;
     samplingRate := samplingRate this;
     adcScale := adcScale this;
     channelBuffers := map_set (channelBuffers this) ch buffer;
     maxBufferSamples := maxBufferSamples this;
     packetCount := packetCount this;
     sampleCount := sampleCount this + 1;
     startTime := startTime this;
     lastAnalysisTime := lastAnalysisTime;
     analysisInterval := analysisInterval this |}.

(** [-n] on a [jsint]. *)
Definition jsint_opp (n : jsint) : jsint :=
  match n with
  | JFin z => JFin (- z)
  | JPosInf => JNegInf
  | JNegInf => JPosInf
  | JNaN => JNaN
  end.

(** [a.slice(start)]: a negative start counts from the end. *)
Definition slice_from {A : Type} (a : list A) (start : jsint) : list A :=
  match start with
  | JFin z =>
      if z <? 0 then skipn (Z.to_nat (Z.max (Z.of_nat (length a) + z) 0)) a
      else skipn (Z.to_nat z) a
  | JPosInf => []
  | JNegInf => a
  | JNaN => a
  end.

(** [analyzeChannel(channelId)] (lines 142-165) changes no field.  It takes
    the window below, prints its length, mean, standard deviation and
    variance, and refers to the Python script for band powers.  The model
    returns the window; [None] stands for the two early returns. *)
Definition analyzeChannel (this : EEGStreamProcessor) (channelId : jsint)
    : option (list float) :=
  match map_get (channelBuffers this) channelId with
  | None => None
  | Some buffer =>
      if (length buffer <? 10)%nat then None
      else
        let voltages := map voltage buffer in
        let windowSamples :=
          Math_floor (PrimFloat.mul (windowDuration this) (samplingRate this)) in
        let dataToAnalyze :=
          if length_gt (length voltages) windowSamples
          then slice_from voltages (jsint_opp windowSamples)
          else voltages in
        if (length dataToAnalyze <? 10)%nat then None else Some dataToAnalyze
  end.

(** The loop over [lastAnalysisTime.entries()] (lines 67-72): a channel that
    is due is analysed and its time is reset; the order of the keys stays. *)
Definition refresh_analysis (currentTime interval : Z) (m : JsMap Z) : JsMap Z :=
  map (fun '(ch, lastTime) =>
         if interval <=? currentTime - lastTime then (ch, currentTime)
         else (ch, lastTime)) m.

(** [!this.startTime]: [null] and [0] are falsy. *)
Definition startTime_unset (t : option Z) : bool :=
  match t with
  | None => true
  | Some z => z =? 0
  end.

(** [processPacket(data)] (lines 26-85), with [Date.now()] as an argument.
    An exception of the decoder is caught and leaves the state as it was. *)
Definition processPacket (this : EEGStreamProcessor) (data : Buffer) (currentTime : Z)
    : EEGStreamProcessor :=
  match decodePacket this data with
  | Normal packet =>
      if strict_eq (packetType packet) 1 then this
      else if negb (strict_eq (packetType packet) 2)
              || (length (samples packet) =? 0)%nat then this
      else
        let this1 :=
          {| windowDuration := windowDuration this;
             samplingRate := samplingRate this;
             adcScale := adcScale this;
             channelBuffers := channelBuffers this;
             maxBufferSamples := maxBufferSamples this;
             packetCount := packetCount this + 1;
             sampleCount := sampleCount this;
             startTime := if startTime_unset (startTime this)
                          then Some currentTime else startTime this;
             lastAnalysisTime := lastAnalysisTime this;
             analysisInterval := analysisInterval this |} in
        let this2 := fold_left (add_sample currentTime) (samples packet) this1 in
        {| windowDuration := windowDuration this2;
           samplingRate := samplingRate this2;
           adcScale := adcScale this2;
           channelBuffers := channelBuffers this2;
           maxBufferSamples := maxBufferSamples this2;
           packetCount := packetCount this2;
           sampleCount := sampleCount this2;
           startTime := startTime this2;
           lastAnalysisTime :=
             refresh_analysis currentTime (analysisInterval this2)
               (lastAnalysisTime this2);
           analysisInterval := analysisInterval this2 |}
  | Throw _ => this
  | OutOfFuel => this
  end.

(** A notification: the time it is handled at, and its payload. *)
Definition Notification : Type := (Z * Buffer)%type.

(** The notify handler of line 248, run on a sequence of notifications. *)
Definition feed (this : EEGStreamProcessor) (ns : list Notification)
    : EEGStreamProcessor :=
  fold_left (fun p n => processPacket p (snd n) (fst n)) ns this.

(* ================================================================== *)
(** ** The start sequence of [streamEEGData] *)

Definition CMD_START_STREAM : Buffer := [x43; x54; x52; x4c; x00; x03; x00; x05].
Definition CMD_STOP_STREAM : Buffer := [x43; x54; x52; x4c; x00; x03; x00; x03].
Definition CMD_KEEP_ALIVE : Buffer := [x43; x54; x52; x4c; x00; x05; x00; x02].
Definition CMD_ALT_START : Buffer := [x43; x54; x52; x4c; x00; x04; x00; x01].

Record Characteristic : Type := mkCharacteristic {
  uuid : string;
  properties : list string
}.

Definition includes (props : list string) (p : string) : bool :=
  existsb (String.eqb p) props.

(** Lines 229-241: the last characteristic of each kind wins. *)
Definition find_characteristics (characteristics : list Characteristic)
    : option Characteristic * option Characteristic :=
  fold_left
    (fun (found : option Characteristic * option Characteristic) char =>
       (if includes (properties char) "notify" then Some char else fst found,
        if includes (properties char) "write"
           || includes (properties char) "writeWithoutResponse"
        then Some char else snd found))
    characteristics (None, None).

(** What the peripheral does during one run: its characteristics, whether
    each of the two start writes is accepted, and the notifications handled
    while the function is suspended - from the subscription up to the test of
    line 276, and from there up to the test of line 287. *)
Record Peripheral : Type := mkPeripheral {
  characteristics : list Characteristic;
  start_accepted : bool;
  before_check : list Notification;
  alt_accepted : bool;
  after_check : list Notification
}.

(** A call of [writeChar.writeAsync(cmd, false)] and whether it resolved. *)
Record Write : Type := mkWrite {
  command : Buffer;
  resolved : bool
}.

(** The state of a run when the start sequence is over (line 302). *)
Record Stream : Type := mkStream {
  processor : EEGStreamProcessor;
  writes : list Write;
  keepAlive : bool
}.

(** [streamEEGData(peripheral)], lines 207-302; [None] is the rejection
    with "No notification characteristic found". *)
Definition streamEEGData (peripheral : Peripheral) : option Stream :=
  let processor := default_processor in
  let '(notifyChar, writeChar) := find_characteristics (characteristics peripheral) in
  match notifyChar with
  | None => None
  | Some _ =>
      let has_write := match writeChar with Some _ => true | None => false end in
      let writes :=
        if has_write
        then [{| command := CMD_START_STREAM; resolved := start_accepted peripheral |}]
        else [] in
      let processor := feed processor (before_check peripheral) in
      let alt := (packetCount processor =? 0) && has_write in
      let writes :=
        if alt
        then writes ++ [{| command := CMD_ALT_START; resolved := alt_accepted peripheral |}]
        else writes in
      let processor :=
        if alt then feed processor (after_check peripheral) else processor in
      Some {| processor := processor;
              writes := writes;
              keepAlive := has_write && (0 <? packetCount processor) |}
  end.

(** The cleanup of lines 305-324: the stop command goes out when there is a
    write characteristic. *)
Definition cleanup (has_write stop_accepted : bool) (s : Stream) : Stream :=
  {| processor := processor s;
     writes := if has_write
               then writes s ++ [{| command := CMD_STOP_STREAM; resolved := stop_accepted |}]
               else writes s;
     keepAlive := false |}.

(* ================================================================== *)
(** ** Closed forms used in the statements *)

(** The sample the loop body yields for the seven bytes of one record, as
    the [n]-th sample of a frame whose channel-count byte is [numChannels]. *)
Definition sample_of_record (this : EEGStreamProcessor) (numChannels : option Z)
    (n : Z) (r0 r1 r2 r3 r4 r5 r6 : byte) : Sample :=
  let v := byte_val r0 + byte_val r1 * 2 ^ 8 + byte_val r2 * 2 ^ 16 in
  let value := if Z.testbit v 23 then v - 2 ^ 24 else v in
  let sampleIdx := byte_val r4 + byte_val r5 * 2 ^ 8 in
  {| sampleNumber := n;
     sampleIndex := sampleIdx;
     channel := rem sampleIdx numChannels;
     rawValue := value;
     voltageUv := PrimFloat.div (float_of_Z value) (adcScale this);
     rawHex := toString_hex [r0; r1; r2; r3; r4; r5; r6] |}.

(** The sample built from the record that starts at [offset]. *)
Definition sample_at (this : EEGStreamProcessor) (data : Buffer)
    (numChannels : option Z) (offset : nat) (n : Z) : Sample :=
  let r i := nth (offset + i) data x00 in
  sample_of_record this numChannels n (r 0%nat) (r 1%nat) (r 2%nat) (r 3%nat)
    (r 4%nat) (r 5%nat) (r 6%nat).

(** The samples of the records [0 .. r-1] counted from [offset]; [base] is
    the number of samples decoded before. *)
Definition samples_from (this : EEGStreamProcessor) (data : Buffer)
    (numChannels : option Z) (offset base r : nat) : list Sample :=
  map (fun j => sample_at this data numChannels (offset + 7 * j) (Z.of_nat (base + j)))
      (seq 0 r).

(** The little-endian 32-bit field at [off]. *)
Definition u32_at (data : Buffer) (off : nat) : Z :=
  byte_val (nth off data x00) + byte_val (nth (off + 1) data x00) * 2 ^ 8
  + byte_val (nth (off + 2) data x00) * 2 ^ 16
  + byte_val (nth (off + 3) data x00) * 2 ^ 24.

(** Number of whole records between offset 12 and the last ten bytes. *)
Definition record_count (len : nat) : nat := Z.to_nat ((Z.of_nat len - 22) / 7).

(** The buffer of channel [ch]; a channel not seen yet has none, which an
    append treats as empty. *)
Definition buffer_of (p : EEGStreamProcessor) (ch : jsint) : list Entry :=
  match map_get (channelBuffers p) ch with
  | Some buffer => buffer
  | None => []
  end.

(** No buffer of [p] is longer than the capacity of [p]. *)
Definition buffers_within (p : EEGStreamProcessor) : Prop :=
  forall ch buf,
    In (ch, buf) (channelBuffers p) ->
    length_gt (length buf) (maxBufferSamples p) = false.

(** A sample packet: a type-2 frame that holds at least one whole record
    in front of its trailer. *)
Definition is_sample_packet (data : Buffer) : bool :=
  strict_eq (index data 5) 2 && (29 <=? length data)%nat.

Definition count_sample_packets (ns : list Notification) : nat :=
  length (filter is_sample_packet (map snd ns)).

(** Frames used in the examples. *)
Definition sample_frame : Buffer :=
  [x44; x41; x54; x41; x00; x02; x00; x03; x50; x00; x00; x00;
   xc0; x6e; xfc; x00; x00; x01; x00;
   x01; x02; x03; x00; x05; x00; x00;
   x00; x00; x00; x00; x00; x00; x00; x00; x00; x00].

(** A type-2 frame with one record whose bytes 4, 5, 6 are [00 01 00], for
    four channels. *)
Definition offset_frame : Buffer :=
  [x44; x41; x54; x41; x00; x02; x00; x04; x11; x00; x00; x00;
   x10; x00; x00; x00; x00; x01; x00;
   x00; x00; x00; x00; x00; x00; x00; x00; x00; x00].

(** A type-2 frame for three channels with the single record
    [01 02 03 00 00 00 00]. *)
Definition scenario_frame : Buffer :=
  [x44; x41; x54; x41; x00; x02; x00; x03; x11; x00; x00; x00;
   x01; x02; x03; x00; x00; x00; x00;
   x00; x00; x00; x00; x00; x00; x00; x00; x00; x00].

(** A type-2 frame that is all header. *)
Definition short_frame : Buffer :=
  [x44; x41; x54; x41; x00; x02; x00; x03; x00; x00; x00; x00].

(** The status frame with another tag in front. *)
Definition bad_header_frame : Buffer :=
  [x58; x58; x58; x58; x00; x01; x00; x03; x20; x00; x00; x00;
   x54; x48; x32; x31].

(** A type-2 frame with one record and a channel count of zero. *)
Definition zero_channel_frame : Buffer :=
  [x44; x41; x54; x41; x00; x02; x00; x00; x11; x00; x00; x00;
   x01; x02; x03; x00; x07; x00; x00;
   x00; x00; x00; x00; x00; x00; x00; x00; x00; x00].

(* ================================================================== *)
(** ** Further closed forms *)

(** The processor when the loop over the samples starts (lines 39-44) and
    when it is over (lines 67-72). *)
Definition begin_packet (currentTime : Z) (this : EEGStreamProcessor)
    : EEGStreamProcessor :=
  {| windowDuration := windowDuration this;
     samplingRate := samplingRate this;
     adcScale := adcScale this;
     channelBuffers := channelBuffers this;
     maxBufferSamples := maxBufferSamples this;
     packetCount := packetCount this + 1;
     sampleCount := sampleCount this;
     startTime := if startTime_unset (startTime this)
                  then Some currentTime else startTime this;
     lastAnalysisTime := lastAnalysisTime this;
     analysisInterval := analysisInterval this |}.

Definition end_packet (currentTime : Z) (this : EEGStreamProcessor)
    : EEGStreamProcessor :=
  {| windowDuration := windowDuration this;
     samplingRate := samplingRate this;
     adcScale := adcScale this;
     channelBuffers := channelBuffers this;
     maxBufferSamples := maxBufferSamples this;
     packetCount := packetCount this;
     sampleCount := sampleCount this;
     startTime := startTime this;
     lastAnalysisTime :=
       refresh_analysis currentTime (analysisInterval this) (lastAnalysisTime this);
     analysisInterval := analysisInterval this |}.

(** Total number of entries in the buffers. *)
Definition buffered (p : EEGStreamProcessor) : nat :=
  list_sum (map (fun cb => length (snd cb)) (channelBuffers p)).

(** The last [n] elements of a list. *)
Definition lastn {A : Type} (n : nat) (l : list A) : list A :=
  skipn (length l - n) l.

(** What a buffer of capacity [max] keeps of the entries appended to it:
    the last [max] of them; all of them when the test [length > max] is never
    true; none when it always is. *)
Definition retained (max : jsint) (entries : list Entry) : list Entry :=
  match max with
  | JFin z => lastn (Z.to_nat z) entries
  | JPosInf => entries
  | JNegInf => []
  | JNaN => entries
  end.

(** The entries one notification contributes to the buffer of [ch], in the
    order of its samples. *)
Definition channel_entries (this : EEGStreamProcessor) (ch : jsint)
    (n : Notification) : list Entry :=
  match decodePacket this (snd n) with
  | Normal packet =>
      if strict_eq (packetType packet) 2
      then map (fun s => {| time := fst n; voltage := voltageUv s |})
               (filter (fun s => jsint_eqb (channel s) ch) (samples packet))
      else []
  | Throw _ => []
  | OutOfFuel => []
  end.

(** Entries in the order of their times. *)
Definition chronological (buffer : list Entry) : Prop :=
  StronglySorted (fun a b => time a <= time b) buffer.

(** The keys a channel can take: [NaN] and the remainders of a division by
    a byte. *)
Definition channel_keys : list jsint :=
  JNaN :: map (fun c => JFin (Z.of_nat c)) (seq 0 255).

(** The time of the first sample packet among [ns]. *)
Definition first_sample_time (ns : list Notification) : option Z :=
  option_map fst (find (fun n => is_sample_packet (snd n)) ns).

(** Total number of records in the sample packets among [ns]. *)
Definition count_samples (ns : list Notification) : nat :=
  list_sum (map (fun n => if is_sample_packet (snd n)
                          then record_count (length (snd n)) else 0%nat) ns).



(* ================================================================== *)
(** ** Scanning for the device *)

(** [s.toLowerCase()] on a string of code units below 256: the letters A-Z
    and the Latin-1 capitals (all of C0-DE but the multiplication sign). *)
Definition lower_char (c : ascii) : ascii :=
  let n := N_of_ascii c in
  if ((65 <=? n) && (n <=? 90))%N then ascii_of_N (n + 32)
  else if ((192 <=? n) && (n <=? 222) && negb (n =? 215))%N then ascii_of_N (n + 32)
  else c.

Fixpoint toLowerCase (s : string) : string :=
  match s with
  | EmptyString => EmptyString
  | String c rest => String (lower_char c) (toLowerCase rest)
  end.

(** [s.includes(pattern)]. *)
Fixpoint string_includes (s pattern : string) : bool :=
  prefix pattern s ||
  match s with
  | EmptyString => false
  | String _ rest => string_includes rest pattern
  end.

(** The test of lines 183 and 192-194 on a name. *)
Definition is_target_name (name : string) : bool :=
  string_includes (toLowerCase name) "serenibrain"
  || string_includes (toLowerCase name) "th21a"
  || string_includes (toLowerCase name) "eeg".

(** A discovered peripheral: [advertisement.localName] ([None] is
    [undefined]) and [address]. *)
Record Discovered : Type := mkDiscovered {
  localName : option string;
  address : string
}.

(** [localName || d]: [undefined] and the empty string are falsy. *)
Definition name_or (d : string) (p : Discovered) : string :=
  match localName p with
  | None => d
  | Some EmptyString => d
  | Some name => name
  end.

(** [scanForDevice()] (lines 168-204) on the peripherals discovered, in
    their order, before the timeout.  The discover handler resolves with the
    first one whose name passes the test; failing that, the timeout handler
    searches the devices collected. *)
Definition scanForDevice (discovered : list Discovered) : option Discovered :=
  match find (fun p => is_target_name (name_or "Unknown" p)) discovered with
  | Some p => Some p
  | None => find (fun p => is_target_name (name_or "" p)) discovered
  end.

(** The packet [sample_frame] decodes to. *)
Definition sample_frame_packet : Packet :=
  {| header := "DATA";
     packetType := Some 2;
     numChannels := Some 3;
     payloadSize := 80;
     samples := [sample_at default_processor sample_frame (Some 3) 12 0;
                 sample_at default_processor sample_frame (Some 3) 19 1];
     deviceModel := None |}.

(** The processor of the program after eleven sample packets. *)
Definition eleven_packets : EEGStreamProcessor :=
  feed default_processor
    (map (fun t => (t, sample_frame)) [1; 2; 3; 4; 5; 6; 7; 8; 9; 10; 11]).

(* ================================================================== *)
(** ** The definitions on concrete inputs *)

Example Math_floor_half : Math_floor 2.5%float = JFin 2.
Proof. vm_compute. reflexivity. Qed.

Example Math_floor_negative : Math_floor (-2.5)%float = JFin (-3).
Proof. vm_compute. reflexivity. Qed.

Example Math_floor_integer : Math_floor (-2)%float = JFin (-2).
Proof. vm_compute. reflexivity. Qed.

Example Math_floor_infinity : Math_floor PrimFloat.infinity = JPosInf.
Proof. vm_compute. reflexivity. Qed.

Example default_capacity : maxBufferSamples default_processor = JFin 2250.
Proof. vm_compute. reflexivity. Qed.

Example ToInt32_wraps : ToInt32 (2 ^ 31) = - 2 ^ 31.
Proof. reflexivity. Qed.

Example too_short_message :
  message (PacketTooShort 8) = "Packet too short: 8 bytes"%string.
Proof. reflexivity. Qed.

Example scenario_frame_decodes :
  decodePacket default_processor scenario_frame =
  Normal {| header := "DATA";
            packetType := Some 2;
            numChannels := Some 3;
            payloadSize := 17;
            samples :=
              [ {| sampleNumber := 0;
                   sampleIndex := 0;
                   channel := JFin 0;
                   rawValue := 197121;
                   voltageUv := PrimFloat.div (float_of_Z 197121) 100%float;
                   rawHex := "01020300000000" |} ];
            deviceModel := None |}.
Proof. vm_compute. reflexivity. Qed.

Example sample_frame_routed :
  map (fun cb => (fst cb, map time (snd cb)))
      (channelBuffers (feed default_processor
                         [(1000, sample_frame); (1040, sample_frame)])) =
  [(JFin 1, [1000; 1040]); (JFin 2, [1000; 1040])].
Proof. vm_compute. reflexivity. Qed.

(* ================================================================== *)
(** ** Bytes and bitwise arithmetic *)

Lemma byte_val_range (b : byte) : 0 <= byte_val b < 256.
Proof.
  unfold byte_val. pose proof (Byte.to_N_bounded b). lia.
Qed.

Lemma ToInt32_small (z : Z) : - 2 ^ 31 <= z < 2 ^ 31 -> ToInt32 z = z.
Proof.
  intros H. unfold ToInt32. rewrite Z.mod_small; lia.
Qed.

Lemma land_shiftl_low (a b n : Z) :
  0 <= n -> 0 <= a < 2 ^ n -> Z.land a (Z.shiftl b n) = 0.
Proof.
  intros Hn Ha. apply Z.bits_inj'. intros i Hi.
  rewrite Z.land_spec, Z.bits_0.
  destruct (Z.lt_ge_cases i n) as [Hlt | Hge].
  - rewrite (Z.shiftl_spec_low b n i Hlt). apply andb_false_r.
  - replace (Z.testbit a i) with false; [reflexivity|].
    symmetry. destruct (Z.eq_dec a 0) as [-> | Hne].
    + apply Z.bits_0.
    + apply Z.bits_above_log2; [lia|].
      apply Z.lt_le_trans with n; [|exact Hge].
      apply Z.log2_lt_pow2; lia.
Qed.

Lemma lor_shiftl_add (a b n : Z) :
  0 <= n -> 0 <= a < 2 ^ n -> Z.lor a (Z.shiftl b n) = a + b * 2 ^ n.
Proof.
  intros Hn Ha.
  rewrite <- Z.lxor_lor by (apply land_shiftl_low; assumption).
  rewrite <- Z.add_nocarry_lxor by (apply land_shiftl_low; assumption).
  rewrite Z.shiftl_mul_pow2 by assumption. reflexivity.
Qed.

Lemma land_pow2 (v n : Z) :
  0 <= n -> Z.land v (2 ^ n) = if Z.testbit v n then 2 ^ n else 0.
Proof.
  intros Hn. apply Z.bits_inj'. intros i Hi.
  rewrite Z.land_spec, Z.pow2_bits_eqb by assumption.
  destruct (Z.eqb_spec n i) as [-> | Hne].
  - rewrite andb_true_r. destruct (Z.testbit v i) eqn:E.
    + rewrite Z.pow2_bits_true; [reflexivity | assumption].
    + symmetry. apply Z.bits_0.
  - rewrite andb_false_r. destruct (Z.testbit v n).
    + symmetry. apply Z.pow2_bits_false. exact Hne.
    + symmetry. apply Z.bits_0.
Qed.

Lemma testbit_23_ge (v : Z) :
  0 <= v < 2 ^ 24 -> Z.testbit v 23 = (2 ^ 23 <=? v).
Proof.
  intros Hv. rewrite Z.testbit_odd, Z.shiftr_div_pow2 by lia.
  destruct (Z.leb_spec (2 ^ 23) v) as [Hge | Hlt].
  - replace (v / 2 ^ 23) with 1; [reflexivity|].
    apply Z.div_unique with (r := v - 2 ^ 23); lia.
  - rewrite Z.div_small by lia. reflexivity.
Qed.

Lemma shl_small (a n : Z) :
  0 <= n < 32 -> 0 <= a -> a * 2 ^ n < 2 ^ 31 -> shl a n = a * 2 ^ n.
Proof.
  intros Hn Ha Hb. unfold shl.
  assert (a <= a * 2 ^ n) by nia.
  rewrite (ToInt32_small a) by lia.
  rewrite Z.mod_small by lia.
  rewrite Z.shiftl_mul_pow2 by lia.
  apply ToInt32_small. lia.
Qed.

Lemma bor_disjoint (a b n : Z) :
  0 <= n -> 0 <= a < 2 ^ n -> 0 <= b -> a + b * 2 ^ n < 2 ^ 31 ->
  bor a (b * 2 ^ n) = a + b * 2 ^ n.
Proof.
  intros Hn Ha Hb Hs. unfold bor.
  assert (0 <= b * 2 ^ n) by nia.
  rewrite (ToInt32_small a) by lia.
  rewrite (ToInt32_small (b * 2 ^ n)) by lia.
  assert (E : Z.lor a (b * 2 ^ n) = a + b * 2 ^ n).
  { rewrite <- (lor_shiftl_add a b n) by lia.
    rewrite Z.shiftl_mul_pow2 by lia. reflexivity. }
  rewrite E. apply ToInt32_small. lia.
Qed.

(** The three-byte read of line 115 is the little-endian value. *)
Lemma read_value_le (data : Buffer) (offset : nat) (b0 b1 b2 : byte) :
  nth_error data offset = Some b0 ->
  nth_error data (offset + 1) = Some b1 ->
  nth_error data (offset + 2) = Some b2 ->
  read_value data offset = byte_val b0 + byte_val b1 * 2 ^ 8 + byte_val b2 * 2 ^ 16.
Proof.
  intros H0 H1 H2. unfold read_value, index. rewrite H0, H1, H2. simpl option_map.
  unfold int_of_index.
  pose proof (byte_val_range b0) as R0.
  pose proof (byte_val_range b1) as R1.
  pose proof (byte_val_range b2) as R2.
  rewrite (shl_small (byte_val b1) 8) by lia.
  rewrite (shl_small (byte_val b2) 16) by lia.
  rewrite (bor_disjoint (byte_val b0) (byte_val b1) 8) by lia.
  rewrite (bor_disjoint (byte_val b0 + byte_val b1 * 2 ^ 8) (byte_val b2) 16) by lia.
  reflexivity.
Qed.

(** The test of line 118 looks at bit 23. *)
Lemma sign_extend_bit23 (v : Z) :
  0 <= v < 2 ^ 24 ->
  sign_extend v = if Z.testbit v 23 then v - 2 ^ 24 else v.
Proof.
  intros Hv. unfold sign_extend, band.
  rewrite (ToInt32_small v) by lia.
  rewrite (ToInt32_small 8388608) by lia.
  change 8388608 with (2 ^ 23). rewrite land_pow2 by lia.
  destruct (Z.testbit v 23).
  - rewrite ToInt32_small by lia. reflexivity.
  - rewrite ToInt32_small by lia. reflexivity.
Qed.

(* ================================================================== *)
(** ** Reading inside the buffer *)

Lemma nth_error_in_range (data : Buffer) (i : nat) :
  (i < length data)%nat -> nth_error data i = Some (nth i data x00).
Proof.
  intros H. apply nth_error_nth'. exact H.
Qed.

Lemma skipn_cons_nth (data : Buffer) (i : nat) :
  (i < length data)%nat -> skipn i data = nth i data x00 :: skipn (S i) data.
Proof.
  revert i. induction data as [| b rest IH]; intros i H; simpl in H.
  - lia.
  - destruct i as [| i]; [reflexivity|].
    simpl. apply IH. lia.
Qed.

Lemma slice_record (data : Buffer) (offset : nat) :
  (offset + 7 <= length data)%nat ->
  slice data offset (offset + 7) =
  [nth (offset + 0) data x00; nth (offset + 1) data x00; nth (offset + 2) data x00;
   nth (offset + 3) data x00; nth (offset + 4) data x00; nth (offset + 5) data x00;
   nth (offset + 6) data x00].
Proof.
  intros H. unfold slice.
  replace (offset + 7 - offset)%nat with 7%nat by lia.
  rewrite (skipn_cons_nth data offset) by lia.
  rewrite (skipn_cons_nth data (S offset)) by lia.
  rewrite (skipn_cons_nth data (S (S offset))) by lia.
  rewrite (skipn_cons_nth data (S (S (S offset)))) by lia.
  rewrite (skipn_cons_nth data (S (S (S (S offset))))) by lia.
  rewrite (skipn_cons_nth data (S (S (S (S (S offset)))))) by lia.
  rewrite (skipn_cons_nth data (S (S (S (S (S (S offset))))))) by lia.
  cbn [firstn].
  repeat (f_equal; try (f_equal; lia)).
Qed.

Lemma readUInt16LE_in_range (data : Buffer) (off : nat) :
  (off + 2 <= length data)%nat ->
  readUInt16LE data off =
  Normal (byte_val (nth off data x00) + byte_val (nth (off + 1) data x00) * 2 ^ 8).
Proof.
  intros H. unfold readUInt16LE.
  rewrite (nth_error_in_range data off) by lia.
  rewrite (nth_error_in_range data (off + 1)) by lia.
  reflexivity.
Qed.

Lemma readUInt32LE_in_range (data : Buffer) (off : nat) :
  (off + 4 <= length data)%nat -> readUInt32LE data off = Normal (u32_at data off).
Proof.
  intros H. unfold readUInt32LE.
  rewrite (nth_error_in_range data off) by lia.
  rewrite (nth_error_in_range data (off + 1)) by lia.
  rewrite (nth_error_in_range data (off + 2)) by lia.
  rewrite (nth_error_in_range data (off + 3)) by lia.
  reflexivity.
Qed.

(** The loop body on a record that lies inside the buffer. *)
Lemma decode_sample_in_range (this : EEGStreamProcessor) (data : Buffer)
    (numChannels : option Z) (offset : nat) (n : Z) :
  (offset + 7 <= length data)%nat ->
  decode_sample this data numChannels offset n =
  Normal (sample_at this data numChannels offset n).
Proof.
  intros H. unfold decode_sample, sample_at, sample_of_record.
  rewrite readUInt16LE_in_range by lia. cbn [bind].
  rewrite (read_value_le data offset (nth (offset + 0) data x00)
             (nth (offset + 1) data x00) (nth (offset + 2) data x00)).
  - rewrite sign_extend_bit23.
    + rewrite slice_record by lia.
      replace (offset + 4 + 1)%nat with (offset + 5)%nat by lia.
      reflexivity.
    + pose proof (byte_val_range (nth (offset + 0) data x00)).
      pose proof (byte_val_range (nth (offset + 1) data x00)).
      pose proof (byte_val_range (nth (offset + 2) data x00)).
      lia.
  - rewrite Nat.add_0_r. apply nth_error_in_range. lia.
  - apply nth_error_in_range. lia.
  - apply nth_error_in_range. lia.
Qed.

(** The loop terminates within its fuel and returns one sample per whole
    record in front of the trailer. *)
Lemma decode_loop_spec (this : EEGStreamProcessor) (data : Buffer)
    (numChannels : option Z) (r : nat) :
  forall (fuel offset : nat) (acc : list Sample),
    (r < fuel)%nat ->
    (r = 0 \/ offset + 7 * r + 10 <= length data)%nat ->
    (length data < offset + 7 * (r + 1) + 10)%nat ->
    decode_loop fuel this data numChannels offset acc =
    Normal (acc ++ samples_from this data numChannels offset (length acc) r).
Proof.
  induction r as [| r IH]; intros fuel offset acc Hfuel Hlow Hhigh.
  - destruct fuel as [| fuel]; [lia|]. cbn [decode_loop].
    destruct (Z.leb_spec (Z.of_nat offset + 7) (Z.of_nat (length data) - 10)) as [Hle | Hgt].
    + lia.
    + unfold samples_from. cbn [seq map]. rewrite app_nil_r. reflexivity.
  - destruct fuel as [| fuel]; [lia|]. cbn [decode_loop].
    destruct Hlow as [Hlow | Hlow]; [discriminate|].
    destruct (Z.leb_spec (Z.of_nat offset + 7) (Z.of_nat (length data) - 10)) as [Hle | Hgt].
    + rewrite decode_sample_in_range by lia. cbn [bind].
      rewrite (IH fuel (offset + 7)%nat) by lia.
      f_equal. rewrite <- app_assoc. f_equal.
      unfold samples_from. cbn [seq map app].
      f_equal.
      * f_equal; lia.
      * rewrite <- seq_shift, map_map. apply map_ext.
        intros j. rewrite length_app. cbn [length].
        f_equal; lia.
    + lia.
Qed.

Lemma record_count_bounds (len : nat) :
  (record_count len <= len)%nat /\
  (record_count len = 0 \/ 12 + 7 * record_count len + 10 <= len)%nat /\
  (len < 12 + 7 * (record_count len + 1) + 10)%nat.
Proof.
  unfold record_count.
  pose proof (Z.mul_div_le (Z.of_nat len - 22) 7 eq_refl) as Hlo.
  pose proof (Z.mul_succ_div_gt (Z.of_nat len - 22) 7 eq_refl) as Hhi.
  destruct (Z.lt_ge_cases ((Z.of_nat len - 22) / 7) 0) as [Hneg | Hpos].
  - replace (Z.to_nat ((Z.of_nat len - 22) / 7)) with 0%nat by lia. lia.
  - lia.
Qed.

(** What [decodePacket] returns on a type-2 frame. *)
Lemma decodePacket_type2 (this : EEGStreamProcessor) (data : Buffer) :
  (12 <= length data)%nat ->
  index data 5 = Some 2 ->
  decodePacket this data =
    Normal {| header := toString_ascii data 0 4;
              packetType := Some 2;
              numChannels := index data 7;
              payloadSize := u32_at data 8;
              samples := samples_from this data (index data 7) 12 0
                           (record_count (length data));
              deviceModel := None |}.
Proof.
  intros Hlen Htype. unfold decodePacket.
  destruct (Nat.ltb_spec (length data) 12) as [Hlt | _]; [lia|].
  rewrite (readUInt32LE_in_range data 8) by lia.
  rewrite Htype. cbn [bind].
  pose proof (record_count_bounds (length data)) as (Hfuel & Hlow & Hhigh).
  rewrite (decode_loop_spec this data (index data 7) (record_count (length data)))
    by (cbn [length]; lia).
  reflexivity.
Qed.

(** What [decodePacket] returns on any frame of twelve bytes or more. *)
Lemma decodePacket_ok (this : EEGStreamProcessor) (data : Buffer) :
  (12 <= length data)%nat ->
  decodePacket this data =
    Normal {| header := toString_ascii data 0 4;
              packetType := index data 5;
              numChannels := index data 7;
              payloadSize := u32_at data 8;
              samples :=
                if strict_eq (index data 5) 1 then []
                else if strict_eq (index data 5) 2
                     then samples_from this data (index data 7) 12 0
                            (record_count (length data))
                     else [];
              deviceModel :=
                if strict_eq (index data 5) 1
                then Some (remove_nul (toString_ascii data 12 17))
                else None |}.
Proof.
  intros Hlen. unfold decodePacket.
  destruct (Nat.ltb_spec (length data) 12) as [Hlt | _]; [lia|].
  rewrite (readUInt32LE_in_range data 8) by lia.
  cbn [bind].
  destruct (strict_eq (index data 5) 1); [reflexivity|].
  destruct (strict_eq (index data 5) 2); [|reflexivity].
  pose proof (record_count_bounds (length data)) as (Hfuel & Hlow & Hhigh).
  rewrite (decode_loop_spec this data (index data 7) (record_count (length data)))
    by (cbn [length]; lia).
  reflexivity.
Qed.

Lemma length_samples_from (this : EEGStreamProcessor) (data : Buffer)
    (numChannels : option Z) (offset base r : nat) :
  length (samples_from this data numChannels offset base r) = r.
Proof.
  unfold samples_from. rewrite length_map, length_seq. reflexivity.
Qed.

Lemma nth_error_samples_from (this : EEGStreamProcessor) (data : Buffer)
    (numChannels : option Z) (offset base r k : nat) :
  (k < r)%nat ->
  nth_error (samples_from this data numChannels offset base r) k =
  Some (sample_at this data numChannels (offset + 7 * k) (Z.of_nat (base + k))).
Proof.
  intros Hk. unfold samples_from.
  rewrite nth_error_map.
  rewrite (nth_error_nth' (seq 0 r) 0%nat) by (rewrite length_seq; exact Hk).
  rewrite seq_nth by exact Hk. reflexivity.
Qed.

Lemma In_samples_from (this : EEGStreamProcessor) (data : Buffer)
    (numChannels : option Z) (offset base r : nat) (s : Sample) :
  In s (samples_from this data numChannels offset base r) ->
  exists k, (k < r)%nat /\
    s = sample_at this data numChannels (offset + 7 * k) (Z.of_nat (base + k)).
Proof.
  unfold samples_from. rewrite in_map_iff. intros (k & Hs & Hin).
  apply in_seq in Hin. exists k. split; [lia | symmetry; exact Hs].
Qed.

Lemma nth_error_samples_from_inv (this : EEGStreamProcessor) (data : Buffer)
    (numChannels : option Z) (offset base r k : nat) (s : Sample) :
  nth_error (samples_from this data numChannels offset base r) k = Some s ->
  (k < r)%nat /\
  s = sample_at this data numChannels (offset + 7 * k) (Z.of_nat (base + k)).
Proof.
  intros Hs.
  assert (Hk : (k < r)%nat).
  { rewrite <- (length_samples_from this data numChannels offset base r).
    apply nth_error_Some. rewrite Hs. discriminate. }
  split; [exact Hk|].
  rewrite nth_error_samples_from in Hs by exact Hk.
  injection Hs as <-. reflexivity.
Qed.

(** A record that lies in front of the trailer has been counted. *)
Lemma record_counted (len k : nat) :
  (12 + 7 * (k + 1) + 10 <= len)%nat -> (k < record_count len)%nat.
Proof.
  intros H. pose proof (record_count_bounds len) as (_ & _ & Hhigh). lia.
Qed.

Lemma counted_record (len k : nat) :
  (k < record_count len)%nat -> (12 + 7 * (k + 1) + 10 <= len)%nat.
Proof.
  intros H. pose proof (record_count_bounds len) as (_ & Hlow & _). lia.
Qed.

(* ================================================================== *)
(** ** The decoder: sign extension, channels, record count *)

(** C1. In a type-2 frame, the three little-endian bytes [b0 b1 b2] at the
    start of the [k]-th record, read as the 24-bit value [v], decode to the
    sample's [rawValue]: [v] itself when bit 23 of [v] is clear, [v - 2^24]
    when it is set.  The result is the value of [v] as a 24-bit
    two's-complement number. *)
Theorem C1_sign_extension (this : EEGStreamProcessor) (data : Buffer)
    (k : nat) (b0 b1 b2 : byte) :
  index data 5 = Some 2 ->
  (12 + 7 * (k + 1) + 10 <= length data)%nat ->
  nth_error data (12 + 7 * k) = Some b0 ->
  nth_error data (12 + 7 * k + 1) = Some b1 ->
  nth_error data (12 + 7 * k + 2) = Some b2 ->
  let v := byte_val b0 + byte_val b1 * 2 ^ 8 + byte_val b2 * 2 ^ 16 in
  exists p s,
    decodePacket this data = Normal p /\
    nth_error (samples p) k = Some s /\
    rawValue s = (if Z.testbit v 23 then v - 2 ^ 24 else v) /\
    rawValue s = (v + 2 ^ 23) mod 2 ^ 24 - 2 ^ 23.
Proof.
  intros Htype Hlen H0 H1 H2 v.
  pose proof (decodePacket_type2 this data) as Hdec.
  specialize (Hdec ltac:(lia) Htype).
  eexists. eexists. split; [exact Hdec|]. cbn [samples].
  split.
  - apply nth_error_samples_from. apply record_counted. exact Hlen.
  - unfold sample_at, sample_of_record. cbn [rawValue].
    rewrite Nat.add_0_r.
    rewrite (nth_error_nth data (12 + 7 * k) x00 H0).
    rewrite (nth_error_nth data (12 + 7 * k + 1) x00 H1).
    rewrite (nth_error_nth data (12 + 7 * k + 2) x00 H2).
    fold v. split; [reflexivity|].
    assert (Hv : 0 <= v < 2 ^ 24).
    { pose proof (byte_val_range b0). pose proof (byte_val_range b1).
      pose proof (byte_val_range b2). unfold v. lia. }
    rewrite (testbit_23_ge v Hv).
    destruct (Z.leb_spec (2 ^ 23) v) as [Hge | Hlt].
    + symmetry. replace (v + 2 ^ 23) with (v - 2 ^ 23 + 1 * 2 ^ 24) by lia.
      rewrite Z.mod_add by lia. rewrite Z.mod_small by lia. lia.
    + rewrite Z.mod_small by lia. lia.
Qed.

Lemma C1_sign_extension_witness :
  exists p s,
    decodePacket default_processor sample_frame = Normal p /\
    nth_error (samples p) 0 = Some s /\
    rawValue s = -233792 /\
    rawValue s = (16543424 + 2 ^ 23) mod 2 ^ 24 - 2 ^ 23.
Proof.
  apply (C1_sign_extension default_processor sample_frame 0 xc0 x6e xfc);
    try reflexivity.
  simpl. lia.
Defined.

(** What the loop stores in a sample: the index is the little-endian pair at
    bytes 4 and 5 of the record, the channel is that index modulo the
    channel-count byte, the voltage is the raw value over [adcScale]. *)
Lemma sample_fields (this : EEGStreamProcessor) (data : Buffer) (k : nat) :
  index data 5 = Some 2 ->
  (12 + 7 * (k + 1) + 10 <= length data)%nat ->
  exists p s,
    decodePacket this data = Normal p /\
    nth_error (samples p) k = Some s /\
    readUInt16LE data (12 + 7 * k + 4) = Normal (sampleIndex s) /\
    channel s = rem (sampleIndex s) (index data 7) /\
    voltageUv s = PrimFloat.div (float_of_Z (rawValue s)) (adcScale this).
Proof.
  intros Htype Hlen.
  pose proof (decodePacket_type2 this data) as Hdec.
  specialize (Hdec ltac:(lia) Htype).
  eexists. eexists. split; [exact Hdec|]. cbn [samples].
  split; [apply nth_error_samples_from; apply record_counted; exact Hlen|].
  unfold sample_at, sample_of_record.
  cbn [sampleIndex channel voltageUv rawValue].
  rewrite readUInt16LE_in_range by lia.
  replace (12 + 7 * k + 4 + 1)%nat with (12 + 7 * k + 5)%nat by lia.
  repeat split; reflexivity.
Qed.

(** C2. On [offset_frame] (four channels, record bytes 4..6 equal to
    [00 01 00]) the decoder takes the sequence index from bytes 4 and 5 of the
    record: the index is 256 and the channel 0.  The little-endian pair at
    bytes 5 and 6 of the record is 1, which modulo four is channel 1. *)
Theorem C2_index_read_at_byte_4 :
  exists p s,
    decodePacket default_processor offset_frame = Normal p /\
    samples p = [s] /\
    numChannels p = Some 4 /\
    sampleIndex s = 256 /\
    channel s = JFin 0 /\
    readUInt16LE offset_frame (12 + 5) = Normal 1 /\
    rem 1 (numChannels p) = JFin 1 /\
    voltageUv s = PrimFloat.div (float_of_Z (rawValue s)) (adcScale default_processor).
Proof.
  eexists. eexists. split; [vm_compute; reflexivity|].
  repeat split.
Qed.

(** C3, as stated, fails on a frame shorter than 22 bytes: [short_frame] has
    12 bytes and decodes to no sample, and 0 is not a [k] with
    [12 + 7k <= 12 - 10]. *)
Lemma C3_short_frame_counterexample :
  ~ (forall (this : EEGStreamProcessor) (data : Buffer),
        (12 <= length data)%nat ->
        index data 5 = Some 2 ->
        exists p,
          decodePacket this data = Normal p /\
          12 + 7 * Z.of_nat (length (samples p)) <= Z.of_nat (length data) - 10 /\
          forall k : nat,
            12 + 7 * Z.of_nat k <= Z.of_nat (length data) - 10 ->
            (k <= length (samples p))%nat).
Proof.
  intros H.
  destruct (H default_processor short_frame) as (p & Hdec & Hle & _).
  - simpl. lia.
  - reflexivity.
  - vm_compute in Hdec. injection Hdec as <-.
    simpl in Hle. lia.
Qed.

Lemma nth_same_prefix (data data' : Buffer) (m i : nat) :
  firstn m data' = firstn m data -> (i < m)%nat ->
  nth i data' x00 = nth i data x00.
Proof.
  intros Hpre Hi.
  pose proof (nth_firstn m data' i x00) as E'.
  pose proof (nth_firstn m data i x00) as E.
  destruct (Nat.ltb_spec i m) as [_ | Hge]; [|lia].
  rewrite <- E', <- E, Hpre. reflexivity.
Qed.

Lemma index_same_prefix (data data' : Buffer) (m i : nat) :
  firstn m data' = firstn m data -> (i < m)%nat ->
  index data' i = index data i.
Proof.
  intros Hpre Hi. unfold index.
  pose proof (nth_error_firstn m data' i) as E'.
  pose proof (nth_error_firstn m data i) as E.
  destruct (Nat.ltb_spec i m) as [_ | Hge]; [|lia].
  rewrite <- E', <- E, Hpre. reflexivity.
Qed.

(** A sample depends on the seven bytes of its record only. *)
Lemma sample_at_same_prefix (this : EEGStreamProcessor) (data data' : Buffer)
    (numChannels : option Z) (m offset : nat) (n : Z) :
  firstn m data' = firstn m data -> (offset + 7 <= m)%nat ->
  sample_at this data' numChannels offset n = sample_at this data numChannels offset n.
Proof.
  intros Hpre Hm. unfold sample_at.
  rewrite !(nth_same_prefix data data' m) by (assumption || lia).
  reflexivity.
Qed.

(** C3 (amended). A type-2 frame of length [L] decodes to the records that
    start at offsets 12, 19, 26, ... and lie wholly in front of the last ten
    bytes, and to nothing else: the loop stops as soon as fewer than seven
    bytes are left in front of the trailer.  For [L >= 22] their number is the
    largest [k] with [12 + 7k <= L - 10]; for [L < 22] there is none.  The
    samples do not depend on the last ten bytes of the frame. *)
Theorem C3_record_count (this : EEGStreamProcessor) (data : Buffer) :
  (12 <= length data)%nat ->
  index data 5 = Some 2 ->
  exists p,
    decodePacket this data = Normal p /\
    (forall (k : nat) (s : Sample),
        nth_error (samples p) k = Some s ->
        12 + 7 * (Z.of_nat k + 1) <= Z.of_nat (length data) - 10 /\
        sampleNumber s = Z.of_nat k /\
        rawHex s = toString_hex (slice data (12 + 7 * k) (12 + 7 * k + 7))) /\
    Z.of_nat (length data) - 10 - (12 + 7 * Z.of_nat (length (samples p))) < 7 /\
    (22 <= Z.of_nat (length data) ->
       12 + 7 * Z.of_nat (length (samples p)) <= Z.of_nat (length data) - 10 /\
       forall k : Z,
         12 + 7 * k <= Z.of_nat (length data) - 10 ->
         k <= Z.of_nat (length (samples p))) /\
    (Z.of_nat (length data) < 22 -> samples p = []) /\
    (forall data' : Buffer,
        length data' = length data ->
        firstn (length data - 10) data' = firstn (length data - 10) data ->
        exists p',
          decodePacket this data' = Normal p' /\ samples p' = samples p).
Proof.
  intros Hlen Htype.
  pose proof (decodePacket_type2 this data Hlen Htype) as Hdec.
  eexists. split; [exact Hdec|]. cbn [samples].
  rewrite length_samples_from.
  pose proof (record_count_bounds (length data)) as (_ & Hlow & Hhigh).
  split; [| split; [| split; [| split]]].
  - intros k s Hs.
    apply nth_error_samples_from_inv in Hs. destruct Hs as [Hk ->].
    pose proof (counted_record _ _ Hk) as Hc.
    split; [lia|]. split; [reflexivity|].
    unfold sample_at, sample_of_record. cbn [rawHex].
    rewrite slice_record by lia. reflexivity.
  - lia.
  - intros HL. split; [lia|]. intros k Hk. lia.
  - intros Hshort.
    replace (record_count (length data)) with 0%nat by lia. reflexivity.
  - intros data' Hlen' Hpre.
    pose proof (decodePacket_ok this data') as Hdec'.
    specialize (Hdec' ltac:(lia)).
    eexists. split; [exact Hdec'|]. cbn [samples].
    destruct (Nat.eq_dec (record_count (length data)) 0) as [Hz | Hnz].
    + rewrite Hlen', Hz.
      destruct (strict_eq (index data' 5) 1); [reflexivity|].
      destruct (strict_eq (index data' 5) 2); reflexivity.
    + rewrite (index_same_prefix data data' (length data - 10) 5) by (assumption || lia).
      rewrite (index_same_prefix data data' (length data - 10) 7) by (assumption || lia).
      rewrite Htype, Hlen'. cbn [strict_eq Z.eqb Pos.eqb].
      unfold samples_from. apply map_ext_in. intros j Hj.
      apply in_seq in Hj.
      apply (sample_at_same_prefix this data data' (index data 7) (length data - 10)).
      * exact Hpre.
      * assert (Hc : (j < record_count (length data))%nat) by lia.
        apply counted_record in Hc. lia.
Qed.

Lemma C3_record_count_witness :
  exists p,
    decodePacket default_processor sample_frame = Normal p /\
    (forall (k : nat) (s : Sample),
        nth_error (samples p) k = Some s ->
        12 + 7 * (Z.of_nat k + 1) <= Z.of_nat (length sample_frame) - 10 /\
        sampleNumber s = Z.of_nat k /\
        rawHex s = toString_hex (slice sample_frame (12 + 7 * k) (12 + 7 * k + 7))) /\
    Z.of_nat (length sample_frame) - 10 - (12 + 7 * Z.of_nat (length (samples p))) < 7 /\
    (22 <= Z.of_nat (length sample_frame) ->
       12 + 7 * Z.of_nat (length (samples p)) <= Z.of_nat (length sample_frame) - 10 /\
       forall k : Z,
         12 + 7 * k <= Z.of_nat (length sample_frame) - 10 ->
         k <= Z.of_nat (length (samples p))) /\
    (Z.of_nat (length sample_frame) < 22 -> samples p = []) /\
    (forall data' : Buffer,
        length data' = length sample_frame ->
        firstn (length sample_frame - 10) data' = firstn (length sample_frame - 10) sample_frame ->
        exists p',
          decodePacket default_processor data' = Normal p' /\ samples p' = samples p).
Proof.
  apply (C3_record_count default_processor sample_frame).
  - simpl. lia.
  - reflexivity.
Defined.

Lemma decodePacket_short (this : EEGStreamProcessor) (data : Buffer) :
  (length data < 12)%nat -> exists e, decodePacket this data = Throw e.
Proof.
  intros H. unfold decodePacket.
  destruct (Nat.ltb_spec (length data) 12) as [_ | Hge]; [|lia].
  eexists. reflexivity.
Qed.

(* ================================================================== *)
(** ** The decoder: errors, header, status frames *)

(** C7. [decodePacket] raises "Packet too short" exactly on the inputs that
    are shorter than twelve bytes; on every input of twelve bytes or more it
    returns a packet. *)
Theorem C7_too_short (this : EEGStreamProcessor) (data : Buffer) :
  ((length data < 12)%nat ->
     decodePacket this data = Throw (PacketTooShort (length data))) /\
  ((12 <= length data)%nat -> exists p, decodePacket this data = Normal p) /\
  ((exists n, decodePacket this data = Throw (PacketTooShort n)) <->
     (length data < 12)%nat).
Proof.
  assert (Hshort : (length data < 12)%nat ->
                   decodePacket this data = Throw (PacketTooShort (length data))).
  { intros H. unfold decodePacket.
    destruct (Nat.ltb_spec (length data) 12) as [_ | Hge]; [reflexivity | lia]. }
  assert (Hlong : (12 <= length data)%nat -> exists p, decodePacket this data = Normal p).
  { intros H. eexists. apply decodePacket_ok. exact H. }
  split; [exact Hshort|]. split; [exact Hlong|].
  split.
  - intros [n Hn].
    destruct (Nat.lt_ge_cases (length data) 12) as [Hlt | Hge]; [exact Hlt|].
    destruct (Hlong Hge) as [p Hp]. rewrite Hp in Hn. discriminate.
  - intros H. exists (length data). apply Hshort. exact H.
Qed.

Lemma C7_too_short_witness :
  decodePacket default_processor [x44; x41; x54; x41] = Throw (PacketTooShort 4) /\
  exists p, decodePacket default_processor status_frame = Normal p.
Proof.
  split.
  - apply (proj1 (C7_too_short default_processor [x44; x41; x54; x41])).
    simpl. lia.
  - apply (proj1 (proj2 (C7_too_short default_processor status_frame))).
    simpl. lia.
Defined.

(** C8, as stated, fails: [bad_header_frame] is sixteen bytes long, its
    first four bytes spell "XXXX", and it decodes to a packet. *)
Lemma C8_bad_header_counterexample :
  ~ (forall (this : EEGStreamProcessor) (data : Buffer),
        (12 <= length data)%nat ->
        toString_ascii data 0 4 <> "DATA"%string ->
        exists e, decodePacket this data = Throw e).
Proof.
  intros H.
  destruct (H default_processor bad_header_frame) as [e He].
  - simpl. lia.
  - vm_compute. discriminate.
  - vm_compute in He. discriminate.
Qed.

Lemma skipn_header (h rest : Buffer) (n : nat) :
  length h = 4%nat -> (4 <= n)%nat -> skipn n (h ++ rest) = skipn (n - 4) rest.
Proof.
  intros Hh Hn. rewrite skipn_app, Hh.
  rewrite skipn_all2 by lia. reflexivity.
Qed.

Lemma nth_header (h rest : Buffer) (n : nat) :
  length h = 4%nat -> (4 <= n)%nat -> nth n (h ++ rest) x00 = nth (n - 4) rest x00.
Proof.
  intros Hh Hn. rewrite app_nth2 by lia. rewrite Hh. reflexivity.
Qed.

Lemma index_header (h rest : Buffer) (n : nat) :
  length h = 4%nat -> (4 <= n)%nat -> index (h ++ rest) n = index rest (n - 4).
Proof.
  intros Hh Hn. unfold index. rewrite nth_error_app2 by lia.
  rewrite Hh. reflexivity.
Qed.

(** C8 (amended). The tag is not checked.  An input of twelve bytes or more
    decodes to a packet whatever its first four bytes are; the packet carries
    them, decoded as ASCII, in its [header], and its other fields are the same
    for any two tags in front of the same remainder. *)
Theorem C8_header_unchecked (this : EEGStreamProcessor) (h h' rest : Buffer) :
  length h = 4%nat -> length h' = 4%nat -> (8 <= length rest)%nat ->
  exists p p',
    decodePacket this (h ++ rest) = Normal p /\
    decodePacket this (h' ++ rest) = Normal p' /\
    header p = string_of_list_ascii (map ascii_char h) /\
    header p' = string_of_list_ascii (map ascii_char h') /\
    packetType p' = packetType p /\
    numChannels p' = numChannels p /\
    payloadSize p' = payloadSize p /\
    samples p' = samples p /\
    deviceModel p' = deviceModel p.
Proof.
  intros Hh Hh' Hrest.
  pose proof (decodePacket_ok this (h ++ rest)) as Hdec.
  pose proof (decodePacket_ok this (h' ++ rest)) as Hdec'.
  rewrite length_app in Hdec, Hdec'.
  specialize (Hdec ltac:(lia)). specialize (Hdec' ltac:(lia)).
  eexists. eexists. split; [exact Hdec|]. split; [exact Hdec'|].
  cbn [header packetType numChannels payloadSize samples deviceModel].
  assert (Hhead : forall g : Buffer, length g = 4%nat ->
            toString_ascii (g ++ rest) 0 4 = string_of_list_ascii (map ascii_char g)).
  { intros g Hg.
    destruct g as [| a [| b [| c [| d [| e g]]]]]; try discriminate Hg.
    reflexivity. }
  assert (Hmodel : forall g : Buffer, length g = 4%nat ->
            toString_ascii (g ++ rest) 12 17 =
            string_of_list_ascii (map ascii_char (firstn 5 (skipn 8 rest)))).
  { intros g Hg. unfold toString_ascii, slice.
    rewrite skipn_header by (assumption || lia). reflexivity. }
  assert (Hsize : forall g : Buffer, length g = 4%nat ->
            u32_at (g ++ rest) 8 = u32_at rest 4).
  { intros g Hg. unfold u32_at.
    rewrite !nth_header by (assumption || lia). reflexivity. }
  assert (Hsamples : forall (g : Buffer) (nc : option Z), length g = 4%nat ->
            samples_from this (g ++ rest) nc 12 0
              (record_count (length g + length rest)) =
            map (fun j => sample_at this rest nc (8 + 7 * j) (Z.of_nat (0 + j)))
                (seq 0 (record_count (4 + length rest)))).
  { intros g nc Hg. rewrite Hg. unfold samples_from. apply map_ext.
    intros j. unfold sample_at.
    rewrite !nth_header by (assumption || lia).
    repeat (f_equal; try lia). }
  rewrite !index_header by (assumption || lia).
  rewrite (Hhead h Hh), (Hhead h' Hh'), (Hmodel h Hh), (Hmodel h' Hh').
  rewrite (Hsize h Hh), (Hsize h' Hh').
  rewrite (Hsamples h _ Hh), (Hsamples h' _ Hh').
  repeat split; reflexivity.
Qed.

Lemma C8_header_unchecked_witness :
  exists p p',
    decodePacket default_processor ([x44; x41; x54; x41] ++ skipn 4 status_frame) = Normal p /\
    decodePacket default_processor ([x58; x58; x58; x58] ++ skipn 4 status_frame) = Normal p' /\
    header p = string_of_list_ascii (map ascii_char [x44; x41; x54; x41]) /\
    header p' = string_of_list_ascii (map ascii_char [x58; x58; x58; x58]) /\
    packetType p' = packetType p /\
    numChannels p' = numChannels p /\
    payloadSize p' = payloadSize p /\
    samples p' = samples p /\
    deviceModel p' = deviceModel p.
Proof.
  apply (C8_header_unchecked default_processor
           [x44; x41; x54; x41] [x58; x58; x58; x58] (skipn 4 status_frame)).
  - reflexivity.
  - reflexivity.
  - simpl. lia.
Defined.

Lemma remove_nul_filter (s : string) :
  list_ascii_of_string (remove_nul s) =
  filter (fun c => negb (Ascii.eqb c Ascii.zero)) (list_ascii_of_string s).
Proof.
  induction s as [| c rest IH]; [reflexivity|].
  cbn [remove_nul list_ascii_of_string filter].
  destruct (Ascii.eqb c Ascii.zero); cbn [negb].
  - exact IH.
  - cbn [list_ascii_of_string]. rewrite IH. reflexivity.
Qed.

(** C9. A type-1 frame decodes to a packet whose [deviceModel] is made of
    the bytes at offsets 12 to 16 (as many of them as the frame has), each
    decoded as an ASCII character, without the NUL characters and in their
    order.  The sixteen-byte frame [status_frame] gives "TH21". *)
Theorem C9_status_device_model :
  (forall (this : EEGStreamProcessor) (data : Buffer),
      (12 <= length data)%nat ->
      index data 5 = Some 1 ->
      exists p model,
        decodePacket this data = Normal p /\
        packetType p = Some 1 /\
        samples p = [] /\
        deviceModel p = Some model /\
        list_ascii_of_string model =
        filter (fun c => negb (Ascii.eqb c Ascii.zero))
               (map ascii_char (firstn 5 (skipn 12 data)))) /\
  (exists p,
      decodePacket default_processor status_frame = Normal p /\
      packetType p = Some 1 /\
      deviceModel p = Some "TH21"%string).
Proof.
  split.
  - intros this data Hlen Htype.
    pose proof (decodePacket_ok this data Hlen) as Hdec.
    rewrite Htype in Hdec. cbn [strict_eq Z.eqb Pos.eqb] in Hdec.
    eexists. eexists. split; [exact Hdec|].
    cbn [packetType samples deviceModel].
    repeat split.
    rewrite remove_nul_filter. unfold toString_ascii, slice.
    rewrite list_ascii_of_string_of_list_ascii. reflexivity.
  - eexists. split; [vm_compute; reflexivity|]. split; reflexivity.
Qed.

Lemma C9_status_device_model_witness :
  exists p model,
    decodePacket default_processor status_frame = Normal p /\
    packetType p = Some 1 /\
    samples p = [] /\
    deviceModel p = Some model /\
    list_ascii_of_string model =
    filter (fun c => negb (Ascii.eqb c Ascii.zero))
           (map ascii_char (firstn 5 (skipn 12 status_frame))).
Proof.
  apply (proj1 C9_status_device_model default_processor status_frame).
  - simpl. lia.
  - reflexivity.
Defined.

(** C10. The channel count is not validated.  A type-2 frame whose
    channel-count byte is zero and which holds at least one record decodes
    to a packet, with at least one sample, and every sample has the channel
    [NaN]. *)
Theorem C10_zero_channel_count (this : EEGStreamProcessor) (data : Buffer) :
  index data 5 = Some 2 ->
  index data 7 = Some 0 ->
  (12 + 7 + 10 <= length data)%nat ->
  exists p,
    decodePacket this data = Normal p /\
    samples p <> [] /\
    forall s, In s (samples p) -> channel s = JNaN.
Proof.
  intros Htype Hzero Hlen.
  pose proof (decodePacket_type2 this data) as Hdec.
  specialize (Hdec ltac:(lia) Htype).
  eexists. split; [exact Hdec|]. cbn [samples]. split.
  - intros Hnil.
    pose proof (length_samples_from this data (index data 7) 12 0
                  (record_count (length data))) as Hn.
    rewrite Hnil in Hn. cbn [length] in Hn.
    pose proof (record_counted (length data) 0). lia.
  - intros s Hs. apply In_samples_from in Hs. destruct Hs as (k & _ & ->).
    unfold sample_at, sample_of_record. cbn [channel].
    rewrite Hzero. reflexivity.
Qed.

Lemma C10_zero_channel_count_witness :
  exists p,
    decodePacket default_processor zero_channel_frame = Normal p /\
    samples p <> [] /\
    forall s, In s (samples p) -> channel s = JNaN.
Proof.
  apply (C10_zero_channel_count default_processor zero_channel_frame).
  - reflexivity.
  - reflexivity.
  - simpl. lia.
Defined.

(* ================================================================== *)
(** ** The channel buffers *)

Lemma push_trim_within (max : jsint) (buf : list Entry) (e : Entry) :
  length_gt 0 max = false ->
  length_gt (length buf) max = false ->
  length_gt (length (push_trim max buf e)) max = false.
Proof.
  intros Hmax Hbuf. unfold push_trim.
  destruct (length_gt (length (buf ++ [e])) max) eqn:Hgt; [|exact Hgt].
  destruct max as [z | | |]; cbn [length_gt] in *; try reflexivity; try discriminate.
  rewrite length_app in Hgt. cbn [length] in Hgt.
  destruct buf as [| x rest].
  - cbn [app tl length]. exact Hmax.
  - cbn [app tl]. rewrite length_app. cbn [length] in *.
    apply Z.ltb_ge. apply Z.ltb_ge in Hbuf. lia.
Qed.

Lemma push_trim_keeps (max : jsint) (buf : list Entry) (e : Entry) :
  length_gt (S (length buf)) max = false -> push_trim max buf e = buf ++ [e].
Proof.
  intros H. unfold push_trim.
  rewrite length_app. cbn [length]. rewrite Nat.add_1_r, H. reflexivity.
Qed.

Lemma push_trim_evicts (max : jsint) (buf : list Entry) (e : Entry) :
  length_gt (S (length buf)) max = true ->
  exists oldest, buf ++ [e] = oldest :: push_trim max buf e.
Proof.
  intros H. unfold push_trim.
  rewrite length_app. cbn [length]. rewrite Nat.add_1_r, H.
  destruct buf as [| x rest].
  - exists e. reflexivity.
  - exists x. reflexivity.
Qed.

Lemma In_map_set {V : Type} (m : JsMap V) (k c : jsint) (v b : V) :
  In (c, b) (map_set m k v) -> In (c, b) m \/ b = v.
Proof.
  induction m as [| [k' v'] rest IH]; cbn [map_set].
  - intros [H | []]. right. congruence.
  - destruct (jsint_eqb k' k).
    + intros [H | H].
      * right. congruence.
      * left. right. exact H.
    + intros [H | H].
      * left. left. exact H.
      * destruct (IH H) as [Hin | Heq]; [left; right; exact Hin | right; exact Heq].
Qed.

Lemma map_get_In {V : Type} (m : JsMap V) (k : jsint) (v : V) :
  map_get m k = Some v -> exists k', In (k', v) m.
Proof.
  induction m as [| [k' v'] rest IH]; cbn [map_get]; [discriminate|].
  destruct (jsint_eqb k' k).
  - intros H. injection H as ->. exists k'. left. reflexivity.
  - intros H. destruct (IH H) as [k'' Hin]. exists k''. right. exact Hin.
Qed.

Lemma add_sample_capacity (now : Z) (p : EEGStreamProcessor) (s : Sample) :
  maxBufferSamples (add_sample now p s) = maxBufferSamples p.
Proof.
  unfold add_sample.
  destruct (map_get (channelBuffers p) (channel s)); reflexivity.
Qed.

Lemma add_sample_within (now : Z) (p : EEGStreamProcessor) (s : Sample) :
  length_gt 0 (maxBufferSamples p) = false ->
  buffers_within p -> buffers_within (add_sample now p s).
Proof.
  intros Hmax Hinv ch buf Hin.
  rewrite add_sample_capacity.
  unfold add_sample in Hin.
  destruct (map_get (channelBuffers p) (channel s)) as [old |] eqn:Hget;
    cbn [channelBuffers] in Hin; apply In_map_set in Hin;
    destruct Hin as [Hin | ->].
  - apply (Hinv ch buf Hin).
  - apply push_trim_within; [exact Hmax|].
    apply map_get_In in Hget. destruct Hget as [k' Hk'].
    apply (Hinv k' old Hk').
  - apply (Hinv ch buf Hin).
  - apply push_trim_within; [exact Hmax | exact Hmax].
Qed.

Lemma fold_add_sample_within (now : Z) (ss : list Sample) :
  forall p : EEGStreamProcessor,
    length_gt 0 (maxBufferSamples p) = false ->
    buffers_within p ->
    maxBufferSamples (fold_left (add_sample now) ss p) = maxBufferSamples p /\
    buffers_within (fold_left (add_sample now) ss p).
Proof.
  induction ss as [| s rest IH]; intros p Hmax Hinv; cbn [fold_left].
  - split; [reflexivity | exact Hinv].
  - destruct (IH (add_sample now p s)) as [Hcap Hw].
    + rewrite add_sample_capacity. exact Hmax.
    + apply add_sample_within; assumption.
    + split; [|exact Hw]. rewrite Hcap. apply add_sample_capacity.
Qed.

Lemma processPacket_within (p : EEGStreamProcessor) (data : Buffer) (now : Z) :
  length_gt 0 (maxBufferSamples p) = false ->
  buffers_within p ->
  maxBufferSamples (processPacket p data now) = maxBufferSamples p /\
  buffers_within (processPacket p data now).
Proof.
  intros Hmax Hinv. unfold processPacket.
  destruct (decodePacket p data) as [packet | e |]; try (split; [reflexivity | exact Hinv]).
  destruct (strict_eq (packetType packet) 1); [split; [reflexivity | exact Hinv]|].
  destruct (negb (strict_eq (packetType packet) 2) || (length (samples packet) =? 0)%nat);
    [split; [reflexivity | exact Hinv]|].
  match goal with
  | |- context [fold_left (add_sample now) (samples packet) ?q] =>
      destruct (fold_add_sample_within now (samples packet) q) as [Hcap Hw];
      [exact Hmax | exact Hinv |]
  end.
  split.
  - cbn [maxBufferSamples]. exact Hcap.
  - intros ch buf Hin. cbn [channelBuffers maxBufferSamples] in *.
    apply (Hw ch buf Hin).
Qed.

Lemma feed_within (ns : list Notification) :
  forall p : EEGStreamProcessor,
    length_gt 0 (maxBufferSamples p) = false ->
    buffers_within p ->
    maxBufferSamples (feed p ns) = maxBufferSamples p /\
    buffers_within (feed p ns).
Proof.
  induction ns as [| n rest IH]; intros p Hmax Hinv; cbn [feed fold_left].
  - split; [reflexivity | exact Hinv].
  - destruct (processPacket_within p (snd n) (fst n) Hmax Hinv) as [Hcap Hw].
    destruct (IH (processPacket p (snd n) (fst n))) as [Hcap' Hw'].
    + rewrite Hcap. exact Hmax.
    + exact Hw.
    + split; [|exact Hw']. unfold feed in Hcap'. rewrite Hcap'. exact Hcap.
Qed.

Lemma jsint_eqb_eq (a b : jsint) : jsint_eqb a b = true <-> a = b.
Proof.
  split.
  - destruct a, b; cbn [jsint_eqb]; intros H; try discriminate; try reflexivity.
    apply Z.eqb_eq in H. subst. reflexivity.
  - intros <-. destruct a; cbn [jsint_eqb]; try reflexivity. apply Z.eqb_refl.
Qed.

Lemma map_get_set_same {V : Type} (m : JsMap V) (k : jsint) (v : V) :
  map_get (map_set m k v) k = Some v.
Proof.
  assert (Hkk : jsint_eqb k k = true) by (apply jsint_eqb_eq; reflexivity).
  induction m as [| [k' v'] rest IH]; cbn [map_set map_get].
  - rewrite Hkk. reflexivity.
  - destruct (jsint_eqb k' k) eqn:E; cbn [map_get]; rewrite E; [reflexivity | exact IH].
Qed.

Lemma map_get_set_other {V : Type} (m : JsMap V) (k ch : jsint) (v : V) :
  jsint_eqb k ch = false -> map_get (map_set m k v) ch = map_get m ch.
Proof.
  intros Hne.
  induction m as [| [k' v'] rest IH]; cbn [map_set map_get].
  - rewrite Hne. reflexivity.
  - destruct (jsint_eqb k' k) eqn:E; cbn [map_get].
    + apply jsint_eqb_eq in E. subst k'. rewrite Hne. reflexivity.
    + rewrite IH. reflexivity.
Qed.

(** One sample is one append to the buffer of its channel; the other
    buffers stay as they are. *)
Lemma add_sample_buffers (now : Z) (p : EEGStreamProcessor) (s : Sample) :
  buffer_of (add_sample now p s) (channel s) =
    push_trim (maxBufferSamples p) (buffer_of p (channel s))
      {| time := now; voltage := voltageUv s |} /\
  forall ch, jsint_eqb (channel s) ch = false ->
             buffer_of (add_sample now p s) ch = buffer_of p ch.
Proof.
  unfold buffer_of, add_sample.
  destruct (map_get (channelBuffers p) (channel s)) as [old |] eqn:Hget;
    cbn [channelBuffers]; (split; [rewrite map_get_set_same; reflexivity|]);
    intros ch Hne; rewrite map_get_set_other by exact Hne; reflexivity.
Qed.

(** C4. The capacity of a processor is
    [floor(windowDuration * samplingRate * 1.5)].  When it is not negative,
    no channel buffer is ever longer than it, whatever notifications the
    processor has handled.  Every sample is one append to the buffer of its
    channel.  An append that fits leaves the buffer with the new entry at its
    end; an append that would exceed the capacity removes exactly the first,
    oldest, entry and keeps the others in their order. *)
Theorem C4_buffer_capacity :
  (forall options : Options,
      maxBufferSamples (constructor options) =
      Math_floor
        (PrimFloat.mul
           (PrimFloat.mul (or_default (opt_windowDuration options) 6.0%float)
                          (or_default (opt_samplingRate options) 250.0%float))
           1.5%float)) /\
  (forall (options : Options) (ns : list Notification) (ch : jsint) (buf : list Entry),
      length_gt 0 (maxBufferSamples (constructor options)) = false ->
      In (ch, buf) (channelBuffers (feed (constructor options) ns)) ->
      length_gt (length buf) (maxBufferSamples (constructor options)) = false) /\
  (forall (now : Z) (p : EEGStreamProcessor) (s : Sample),
      buffer_of (add_sample now p s) (channel s) =
        push_trim (maxBufferSamples p) (buffer_of p (channel s))
          {| time := now; voltage := voltageUv s |} /\
      forall ch, jsint_eqb (channel s) ch = false ->
                 buffer_of (add_sample now p s) ch = buffer_of p ch) /\
  (forall (max : jsint) (buf : list Entry) (e : Entry),
      length_gt 0 max = false ->
      length_gt (length buf) max = false ->
      length_gt (length (push_trim max buf e)) max = false /\
      (length_gt (S (length buf)) max = false -> push_trim max buf e = buf ++ [e]) /\
      (length_gt (S (length buf)) max = true ->
         exists oldest, buf ++ [e] = oldest :: push_trim max buf e)).
Proof.
  split; [reflexivity|]. split.
  - intros options ns ch buf Hmax Hin.
    destruct (feed_within ns (constructor options) Hmax) as [Hcap Hw].
    + intros c b [].
    + rewrite <- Hcap. apply (Hw ch buf Hin).
  - split; [exact add_sample_buffers|].
    intros max buf e Hmax Hbuf.
    split; [apply push_trim_within; assumption|].
    split; [apply push_trim_keeps | apply push_trim_evicts].
Qed.

Lemma C4_buffer_capacity_witness :
  length_gt
    (length (nth 0 (map snd (channelBuffers
                               (feed (constructor (mkOptions None None None))
                                     [(1000, sample_frame); (1040, sample_frame)])))
                 []))
    (maxBufferSamples (constructor (mkOptions None None None))) = false /\
  (length_gt (length (push_trim (JFin 1) [mkEntry 1000 1.5%float] (mkEntry 1040 2.5%float)))
             (JFin 1) = false /\
   (length_gt 2 (JFin 1) = false ->
      push_trim (JFin 1) [mkEntry 1000 1.5%float] (mkEntry 1040 2.5%float) =
      [mkEntry 1000 1.5%float] ++ [mkEntry 1040 2.5%float]) /\
   (length_gt 2 (JFin 1) = true ->
      exists oldest,
        [mkEntry 1000 1.5%float] ++ [mkEntry 1040 2.5%float] =
        oldest :: push_trim (JFin 1) [mkEntry 1000 1.5%float] (mkEntry 1040 2.5%float))).
Proof.
  split.
  - apply (proj1 (proj2 C4_buffer_capacity) (mkOptions None None None)
             [(1000, sample_frame); (1040, sample_frame)] (JFin 1)).
    + vm_compute. reflexivity.
    + vm_compute. left. reflexivity.
  - apply (proj2 (proj2 (proj2 C4_buffer_capacity)) (JFin 1)
             [mkEntry 1000 1.5%float] (mkEntry 1040 2.5%float)).
    + reflexivity.
    + reflexivity.
Defined.

(* ================================================================== *)
(** ** The start sequence *)

Lemma fold_add_sample_packetCount (now : Z) (ss : list Sample) :
  forall p : EEGStreamProcessor,
    packetCount (fold_left (add_sample now) ss p) = packetCount p.
Proof.
  induction ss as [| s rest IH]; intros p; cbn [fold_left]; [reflexivity|].
  rewrite IH. unfold add_sample.
  destruct (map_get (channelBuffers p) (channel s)); reflexivity.
Qed.

(** [processPacket] counts the sample packets and nothing else. *)
Lemma processPacket_packetCount (p : EEGStreamProcessor) (data : Buffer) (now : Z) :
  packetCount (processPacket p data now) =
  packetCount p + (if is_sample_packet data then 1 else 0).
Proof.
  unfold processPacket, is_sample_packet.
  destruct (Nat.lt_ge_cases (length data) 12) as [Hshort | Hlong].
  - destruct (decodePacket_short p data Hshort) as [e ->].
    destruct (Nat.leb_spec 29 (length data)) as [H29 | _]; [lia|].
    rewrite andb_false_r. lia.
  - rewrite (decodePacket_ok p data Hlong). cbn [packetType samples].
    destruct (strict_eq (index data 5) 1) eqn:H1.
    + assert (H2 : strict_eq (index data 5) 2 = false).
      { destruct (index data 5) as [z |]; [|reflexivity].
        cbn [strict_eq] in *. apply Z.eqb_eq in H1. subst z. reflexivity. }
      rewrite H2. cbn [andb]. lia.
    + destruct (strict_eq (index data 5) 2) eqn:H2; cbn [negb orb andb]; [|lia].
      rewrite length_samples_from.
      pose proof (record_count_bounds (length data)) as (_ & Hlow & Hhigh).
      destruct (Nat.leb_spec 29 (length data)) as [H29 | H29].
      * destruct (Nat.eqb_spec (record_count (length data)) 0) as [Hz | Hnz]; [lia|].
        cbn [packetCount]. rewrite fold_add_sample_packetCount. reflexivity.
      * destruct (Nat.eqb_spec (record_count (length data)) 0) as [Hz | Hnz]; [lia|].
        lia.
Qed.

Lemma feed_packetCount (ns : list Notification) :
  forall p : EEGStreamProcessor,
    packetCount (feed p ns) =
    packetCount p + Z.of_nat (count_sample_packets ns).
Proof.
  induction ns as [| n rest IH]; intros p.
  - unfold count_sample_packets. cbn [feed fold_left map filter length]. lia.
  - unfold feed in *. cbn [fold_left]. rewrite IH, processPacket_packetCount.
    unfold count_sample_packets. cbn [map filter].
    destruct (is_sample_packet (snd n)); cbn [length]; lia.
Qed.

Lemma count_sample_packets_pos (ns : list Notification) (n : Notification) :
  In n ns -> is_sample_packet (snd n) = true ->
  (0 < count_sample_packets ns)%nat.
Proof.
  intros Hin Hs. unfold count_sample_packets.
  assert (Hf : In (snd n) (filter is_sample_packet (map snd ns))).
  { apply filter_In. split; [apply in_map; exact Hin | exact Hs]. }
  destruct (filter is_sample_packet (map snd ns)); [destruct Hf | cbn [length]; lia].
Qed.

(** C6. With a notify and a write characteristic, [streamEEGData] writes the
    start command and then handles the notifications that arrive before the
    check of line 276; the number of sample packets among them is
    [packetCount] at the check, so the outcome is fixed by the sequence of
    events.  If none of them is a sample packet, the alternative start
    command is written next.  If at least one of them is a sample packet, the
    start command is the only write of the start sequence, the keep-alive is
    switched on, and the alternative start command is not written at any time,
    the final stop included. *)
Theorem C6_alternative_start (peripheral : Peripheral)
    (notifyChar writeChar : Characteristic) :
  find_characteristics (characteristics peripheral) = (Some notifyChar, Some writeChar) ->
  exists s,
    streamEEGData peripheral = Some s /\
    packetCount (feed default_processor (before_check peripheral)) =
      Z.of_nat (count_sample_packets (before_check peripheral)) /\
    (count_sample_packets (before_check peripheral) = 0%nat ->
       writes s =
       [ {| command := CMD_START_STREAM; resolved := start_accepted peripheral |};
         {| command := CMD_ALT_START; resolved := alt_accepted peripheral |} ]) /\
    ((exists n, In n (before_check peripheral) /\ is_sample_packet (snd n) = true) ->
       writes s =
       [ {| command := CMD_START_STREAM; resolved := start_accepted peripheral |} ] /\
       keepAlive s = true /\
       0 < packetCount (processor s) /\
       forall (stop_accepted : bool) (w : Write),
         In w (writes (cleanup true stop_accepted s)) ->
         command w <> CMD_ALT_START).
Proof.
  intros Hfind.
  assert (Hcount : packetCount (feed default_processor (before_check peripheral)) =
                   Z.of_nat (count_sample_packets (before_check peripheral))).
  { rewrite feed_packetCount. reflexivity. }
  unfold streamEEGData. rewrite Hfind.
  eexists. split; [reflexivity|]. split; [exact Hcount|].
  cbn [writes keepAlive processor]. rewrite Hcount. split.
  - intros Hzero. rewrite Hzero. reflexivity.
  - intros (n & Hin & Hs).
    pose proof (count_sample_packets_pos _ _ Hin Hs) as Hpos.
    destruct (Z.eqb_spec (Z.of_nat (count_sample_packets (before_check peripheral))) 0)
      as [Hz | Hnz]; [lia|].
    cbn [andb]. rewrite Hcount.
    split; [reflexivity|]. split.
    + cbn [andb]. apply Z.ltb_lt. lia.
    + split; [lia|].
      intros stop_accepted w Hw. cbn [cleanup writes app] in Hw.
      destruct Hw as [<- | [<- | []]]; cbn [command]; discriminate.
Qed.

Lemma C6_alternative_start_witness :
  (exists s,
      streamEEGData
        {| characteristics := [mkCharacteristic "0b" ["notify"]; mkCharacteristic "0c" ["write"]];
           start_accepted := true;
           before_check := [(1000, status_frame)];
           alt_accepted := true;
           after_check := [(3100, sample_frame)] |}%string = Some s /\
      writes s = [mkWrite CMD_START_STREAM true; mkWrite CMD_ALT_START true]) /\
  (exists s,
      streamEEGData
        {| characteristics := [mkCharacteristic "0b" ["notify"]; mkCharacteristic "0c" ["write"]];
           start_accepted := true;
           before_check := [(1000, status_frame); (1040, sample_frame)];
           alt_accepted := true;
           after_check := [] |}%string = Some s /\
      writes s = [mkWrite CMD_START_STREAM true] /\
      keepAlive s = true).
Proof.
  split.
  - destruct (C6_alternative_start
                {| characteristics := [mkCharacteristic "0b" ["notify"]; mkCharacteristic "0c" ["write"]];
                   start_accepted := true;
                   before_check := [(1000, status_frame)];
                   alt_accepted := true;
                   after_check := [(3100, sample_frame)] |}%string
                (mkCharacteristic "0b" ["notify"]%string)
                (mkCharacteristic "0c" ["write"]%string) eq_refl)
      as (s & Hs & _ & Hnone & _).
    exists s. split; [exact Hs|]. apply Hnone. reflexivity.
  - destruct (C6_alternative_start
                {| characteristics := [mkCharacteristic "0b" ["notify"]; mkCharacteristic "0c" ["write"]];
                   start_accepted := true;
                   before_check := [(1000, status_frame); (1040, sample_frame)];
                   alt_accepted := true;
                   after_check := [] |}%string
                (mkCharacteristic "0b" ["notify"]%string)
                (mkCharacteristic "0c" ["write"]%string) eq_refl)
      as (s & Hs & _ & _ & Hsome).
    exists s. split; [exact Hs|].
    destruct Hsome as (Hw & Hk & _).
    + exists (1040, sample_frame). split; [right; left; reflexivity | reflexivity].
    + split; assumption.
Defined.

(* ================================================================== *)
(** ** More on the decoder *)

Lemma decodePacket_Normal_length (this : EEGStreamProcessor) (data : Buffer) (p : Packet) :
  decodePacket this data = Normal p -> (12 <= length data)%nat.
Proof.
  intros H.
  destruct (Nat.lt_ge_cases (length data) 12) as [Hlt | Hge]; [|exact Hge].
  destruct (decodePacket_short this data Hlt) as [e He].
  rewrite He in H. discriminate.
Qed.

(** The samples of a decoded packet are the records of a type-2 frame. *)
Lemma decoded_sample_inv (this : EEGStreamProcessor) (data : Buffer) (p : Packet)
    (s : Sample) :
  decodePacket this data = Normal p ->
  In s (samples p) ->
  strict_eq (index data 5) 2 = true /\
  numChannels p = index data 7 /\
  exists k, (k < record_count (length data))%nat /\
            s = sample_at this data (index data 7) (12 + 7 * k) (Z.of_nat (0 + k)).
Proof.
  intros Hdec Hin.
  pose proof (decodePacket_Normal_length this data p Hdec) as Hlen.
  rewrite (decodePacket_ok this data Hlen) in Hdec.
  injection Hdec as <-. cbn [samples numChannels] in *.
  destruct (strict_eq (index data 5) 1); [destruct Hin|].
  destruct (strict_eq (index data 5) 2); [|destruct Hin].
  split; [reflexivity|]. split; [reflexivity|].
  apply In_samples_from. exact Hin.
Qed.

Lemma index_byte_range (data : Buffer) (i : nat) (z : Z) :
  index data i = Some z -> 0 <= z < 256.
Proof.
  unfold index. destruct (nth_error data i) as [b |]; cbn [option_map]; [|discriminate].
  intros H. injection H as <-. apply byte_val_range.
Qed.

(** Every decoded sample is within the range of its field: a 24-bit signed
    raw value, a 16-bit index, fourteen hex digits, and - for a channel count
    [n > 0] - a channel in [0, n). *)
Theorem sample_bounds (this : EEGStreamProcessor) (data : Buffer) (p : Packet)
    (s : Sample) :
  decodePacket this data = Normal p ->
  In s (samples p) ->
  - 2 ^ 23 <= rawValue s < 2 ^ 23 /\
  0 <= sampleIndex s < 2 ^ 16 /\
  String.length (rawHex s) = 14%nat /\
  channel s = rem (sampleIndex s) (numChannels p) /\
  (forall n, numChannels p = Some n -> 0 < n ->
             exists c, channel s = JFin c /\ 0 <= c < n).
Proof.
  intros Hdec Hin.
  destruct (decoded_sample_inv this data p s Hdec Hin) as (_ & Hnc & k & _ & ->).
  unfold sample_at, sample_of_record.
  cbn [rawValue sampleIndex rawHex channel].
  set (r0 := nth (12 + 7 * k + 0) data x00).
  set (r1 := nth (12 + 7 * k + 1) data x00).
  set (r2 := nth (12 + 7 * k + 2) data x00).
  set (r4 := nth (12 + 7 * k + 4) data x00).
  set (r5 := nth (12 + 7 * k + 5) data x00).
  pose proof (byte_val_range r0). pose proof (byte_val_range r1).
  pose proof (byte_val_range r2). pose proof (byte_val_range r4).
  pose proof (byte_val_range r5).
  split.
  { set (v := byte_val r0 + byte_val r1 * 2 ^ 8 + byte_val r2 * 2 ^ 16).
    assert (Hv : 0 <= v < 2 ^ 24) by (unfold v; lia).
    rewrite (testbit_23_ge v Hv).
    destruct (Z.leb_spec (2 ^ 23) v); lia. }
  split; [lia|]. split; [reflexivity|].
  rewrite Hnc. split; [reflexivity|].
  intros n Hn Hpos. rewrite Hn. unfold rem.
  destruct (Z.eqb_spec n 0) as [-> | _]; [lia|].
  eexists. split; [reflexivity|].
  apply Z.rem_bound_pos; lia.
Qed.

Lemma sample_bounds_witness :
  - 2 ^ 23 <= rawValue (sample_at default_processor sample_frame (Some 3) 19 1) < 2 ^ 23 /\
  0 <= sampleIndex (sample_at default_processor sample_frame (Some 3) 19 1) < 2 ^ 16 /\
  String.length (rawHex (sample_at default_processor sample_frame (Some 3) 19 1)) = 14%nat /\
  channel (sample_at default_processor sample_frame (Some 3) 19 1) =
    rem (sampleIndex (sample_at default_processor sample_frame (Some 3) 19 1))
        (numChannels sample_frame_packet) /\
  (forall n, numChannels sample_frame_packet = Some n -> 0 < n ->
             exists c, channel (sample_at default_processor sample_frame (Some 3) 19 1) = JFin c /\
                       0 <= c < n).
Proof.
  apply (sample_bounds default_processor sample_frame sample_frame_packet).
  - vm_compute. reflexivity.
  - right. left. reflexivity.
Defined.







Lemma u32_at_range (data : Buffer) (off : nat) : 0 <= u32_at data off < 2 ^ 32.
Proof.
  unfold u32_at.
  pose proof (byte_val_range (nth off data x00)).
  pose proof (byte_val_range (nth (off + 1) data x00)).
  pose proof (byte_val_range (nth (off + 2) data x00)).
  pose proof (byte_val_range (nth (off + 3) data x00)).
  lia.
Qed.

Lemma record_count_pos (len : nat) :
  (0 < record_count len)%nat <-> (29 <= len)%nat.
Proof.
  pose proof (record_count_bounds len) as (_ & Hlow & Hhigh). lia.
Qed.

Lemma decoded_samples_length (this : EEGStreamProcessor) (data : Buffer) (p : Packet) :
  decodePacket this data = Normal p ->
  length (samples p) =
    (if is_sample_packet data then record_count (length data) else 0%nat).
Proof.
  intros Hdec.
  pose proof (decodePacket_Normal_length this data p Hdec) as Hlen.
  rewrite (decodePacket_ok this data Hlen) in Hdec. injection Hdec as <-.
  cbn [samples]. unfold is_sample_packet.
  pose proof (record_count_pos (length data)) as Hpos.
  destruct (strict_eq (index data 5) 1) eqn:H1.
  - assert (H2 : strict_eq (index data 5) 2 = false).
    { destruct (index data 5) as [z |]; cbn [strict_eq] in *; [|reflexivity].
      apply Z.eqb_eq in H1. subst z. reflexivity. }
    rewrite H2. reflexivity.
  - destruct (strict_eq (index data 5) 2); cbn [andb]; [|reflexivity].
    rewrite length_samples_from.
    destruct (Nat.leb_spec 29 (length data)); lia.
Qed.

(** The shape of a decoded packet.  Type, channel count and payload size
    are copied from the header (the size is a 32-bit number and is not
    compared with anything); the packet has samples exactly when the frame is
    of type 2 and at least 29 bytes long, and then one per whole record; it
    has a device model exactly when the frame is of type 1.  Any other type
    gives a packet without either. *)
Theorem packet_shape (this : EEGStreamProcessor) (data : Buffer) (p : Packet) :
  decodePacket this data = Normal p ->
  packetType p = index data 5 /\
  numChannels p = index data 7 /\
  payloadSize p = u32_at data 8 /\
  0 <= payloadSize p < 2 ^ 32 /\
  length (samples p) =
    (if is_sample_packet data then record_count (length data) else 0%nat) /\
  (samples p <> [] <-> is_sample_packet data = true) /\
  (deviceModel p <> None <-> index data 5 = Some 1).
Proof.
  intros Hdec.
  pose proof (decodePacket_Normal_length this data p Hdec) as Hlen.
  rewrite (decodePacket_ok this data Hlen) in Hdec. injection Hdec as <-.
  cbn [packetType numChannels payloadSize samples deviceModel].
  split; [reflexivity|]. split; [reflexivity|]. split; [reflexivity|].
  split; [apply u32_at_range|].
  unfold is_sample_packet.
  pose proof (record_count_pos (length data)) as Hpos.
  assert (Hexcl : strict_eq (index data 5) 1 = true -> strict_eq (index data 5) 2 = false).
  { destruct (index data 5) as [z |]; cbn [strict_eq]; [|reflexivity].
    intros H. apply Z.eqb_eq in H. subst z. reflexivity. }
  assert (Hone : strict_eq (index data 5) 1 = true <-> index data 5 = Some 1).
  { destruct (index data 5) as [z |]; cbn [strict_eq].
    - rewrite Z.eqb_eq. split; [intros ->; reflexivity | intros H; congruence].
    - split; discriminate. }
  destruct (strict_eq (index data 5) 1) eqn:H1.
  - rewrite (Hexcl eq_refl). cbn [andb]. split; [reflexivity|].
    split; [split; [intros H; exfalso; apply H; reflexivity | discriminate]|].
    split; [intros _; apply Hone; reflexivity | discriminate].
  - assert (Hnot1 : index data 5 <> Some 1).
    { intros H. apply Hone in H. discriminate. }
    destruct (strict_eq (index data 5) 2) eqn:H2; cbn [andb].
    + rewrite length_samples_from.
      destruct (Nat.leb_spec 29 (length data)) as [H29 | H29].
      * split; [reflexivity|]. split; [|split; [intros H; exfalso; apply H; reflexivity | intros H; contradiction]].
        split; [reflexivity|]. intros _ Hnil.
        apply (f_equal (@length Sample)) in Hnil.
        rewrite length_samples_from in Hnil. cbn [length] in Hnil. lia.
      * assert (Hz : record_count (length data) = 0%nat) by lia.
        split; [exact Hz|]. rewrite Hz.
        split; [split; [intros H; exfalso; apply H; reflexivity | discriminate]|].
        split; [intros H; exfalso; apply H; reflexivity | intros H; contradiction].
    + split; [reflexivity|].
      split; [split; [intros H; exfalso; apply H; reflexivity | discriminate]|].
      split; [intros H; exfalso; apply H; reflexivity | intros H; contradiction].
Qed.

Lemma packet_shape_witness :
  packetType sample_frame_packet = index sample_frame 5 /\
  numChannels sample_frame_packet = index sample_frame 7 /\
  payloadSize sample_frame_packet = u32_at sample_frame 8 /\
  0 <= payloadSize sample_frame_packet < 2 ^ 32 /\
  length (samples sample_frame_packet) =
    (if is_sample_packet sample_frame then record_count (length sample_frame) else 0%nat) /\
  (samples sample_frame_packet <> [] <-> is_sample_packet sample_frame = true) /\
  (deviceModel sample_frame_packet <> None <-> index sample_frame 5 = Some 1).
Proof.
  apply (packet_shape default_processor sample_frame sample_frame_packet).
  vm_compute. reflexivity.
Defined.

Lemma ascii_char_7bit (b : byte) :
  ascii_char b <> Ascii.zero -> (0 < N_of_ascii (ascii_char b) < 128)%N.
Proof.
  destruct b; vm_compute; intros H; try (split; reflexivity); exfalso; apply H; reflexivity.
Qed.

(** The device model of a status packet has at most five characters, no
    more than the frame has bytes after offset 12, none of them NUL and all
    of them 7-bit. *)
Theorem device_model_bounds (this : EEGStreamProcessor) (data : Buffer) (p : Packet)
    (model : string) :
  decodePacket this data = Normal p ->
  deviceModel p = Some model ->
  packetType p = Some 1 /\
  (String.length model <= 5)%nat /\
  (String.length model <= length data - 12)%nat /\
  forall c, In c (list_ascii_of_string model) ->
            (0 < N_of_ascii c < 128)%N.
Proof.
  intros Hdec Hmodel.
  pose proof (decodePacket_Normal_length this data p Hdec) as Hlen.
  rewrite (decodePacket_ok this data Hlen) in Hdec. injection Hdec as <-.
  cbn [packetType deviceModel] in *.
  destruct (strict_eq (index data 5) 1) eqn:H1; [|discriminate].
  injection Hmodel as <-.
  assert (Hchars : list_ascii_of_string (remove_nul (toString_ascii data 12 17)) =
                   filter (fun c => negb (Ascii.eqb c Ascii.zero))
                          (map ascii_char (firstn 5 (skipn 12 data)))).
  { rewrite remove_nul_filter. unfold toString_ascii, slice.
    rewrite list_ascii_of_string_of_list_ascii. reflexivity. }
  assert (Hlength : forall s : string, String.length s = length (list_ascii_of_string s)).
  { induction s as [| c s IH]; cbn; [reflexivity | rewrite IH; reflexivity]. }
  pose proof (filter_length_le (fun c => negb (Ascii.eqb c Ascii.zero))
                (map ascii_char (firstn 5 (skipn 12 data)))) as Hle.
  rewrite length_map, length_firstn, length_skipn in Hle.
  split.
  { destruct (index data 5) as [z |]; cbn [strict_eq] in H1; [|discriminate].
    apply Z.eqb_eq in H1. subst z. reflexivity. }
  rewrite Hlength, Hchars.
  split; [lia|]. split; [lia|].
  intros c Hc. apply filter_In in Hc. destruct Hc as [Hin Hnz].
  apply in_map_iff in Hin. destruct Hin as (b & <- & _).
  apply ascii_char_7bit. intros Hz. rewrite Hz in Hnz. discriminate.
Qed.

Lemma device_model_bounds_witness :
  packetType (mkPacket "DATA" (Some 1) (Some 3) 32 [] (Some "TH21"%string)) = Some 1 /\
  (String.length "TH21" <= 5)%nat /\
  (String.length "TH21" <= length status_frame - 12)%nat /\
  forall c, In c (list_ascii_of_string "TH21") -> (0 < N_of_ascii c < 128)%N.
Proof.
  apply (device_model_bounds default_processor status_frame
           (mkPacket "DATA" (Some 1) (Some 3) 32 [] (Some "TH21"%string)) "TH21").
  - vm_compute. reflexivity.
  - reflexivity.
Defined.

Lemma decode_loop_adcScale (this this' : EEGStreamProcessor) (data : Buffer)
    (numChannels : option Z) (fuel : nat) :
  adcScale this = adcScale this' ->
  forall (offset : nat) (acc : list Sample),
    decode_loop fuel this data numChannels offset acc =
    decode_loop fuel this' data numChannels offset acc.
Proof.
  intros Hscale. induction fuel as [| fuel IH]; intros offset acc; [reflexivity|].
  cbn [decode_loop]. unfold decode_sample. rewrite Hscale.
  destruct (Z.of_nat offset + 7 <=? Z.of_nat (length data) - 10); [|reflexivity].
  destruct (readUInt16LE data (offset + 4)) as [idx | e |]; cbn [bind];
    [apply IH | reflexivity | reflexivity].
Qed.

Lemma decodePacket_adcScale (this this' : EEGStreamProcessor) (data : Buffer) :
  adcScale this = adcScale this' -> decodePacket this data = decodePacket this' data.
Proof.
  intros Hscale. unfold decodePacket.
  rewrite (decode_loop_adcScale this this' data (index data 7) (S (length data)) Hscale).
  reflexivity.
Qed.

Lemma add_sample_config (now : Z) (p : EEGStreamProcessor) (s : Sample) :
  windowDuration (add_sample now p s) = windowDuration p /\
  samplingRate (add_sample now p s) = samplingRate p /\
  adcScale (add_sample now p s) = adcScale p /\
  analysisInterval (add_sample now p s) = analysisInterval p.
Proof.
  unfold add_sample.
  destruct (map_get (channelBuffers p) (channel s)); repeat split.
Qed.

Lemma fold_add_sample_config (now : Z) (ss : list Sample) :
  forall p : EEGStreamProcessor,
    windowDuration (fold_left (add_sample now) ss p) = windowDuration p /\
    samplingRate (fold_left (add_sample now) ss p) = samplingRate p /\
    adcScale (fold_left (add_sample now) ss p) = adcScale p /\
    analysisInterval (fold_left (add_sample now) ss p) = analysisInterval p.
Proof.
  induction ss as [| s rest IH]; intros p; cbn [fold_left]; [repeat split|].
  destruct (IH (add_sample now p s)) as (H1 & H2 & H3 & H4).
  destruct (add_sample_config now p s) as (G1 & G2 & G3 & G4).
  rewrite H1, H2, H3, H4. repeat split; assumption.
Qed.

Lemma processPacket_config (p : EEGStreamProcessor) (data : Buffer) (now : Z) :
  windowDuration (processPacket p data now) = windowDuration p /\
  samplingRate (processPacket p data now) = samplingRate p /\
  adcScale (processPacket p data now) = adcScale p /\
  analysisInterval (processPacket p data now) = analysisInterval p.
Proof.
  unfold processPacket.
  destruct (decodePacket p data) as [packet | e |]; try (repeat split; reflexivity).
  destruct (strict_eq (packetType packet) 1); [repeat split|].
  destruct (negb (strict_eq (packetType packet) 2) || (length (samples packet) =? 0)%nat);
    [repeat split|].
  cbn [windowDuration samplingRate adcScale analysisInterval].
  match goal with
  | |- context [fold_left (add_sample now) (samples packet) ?q] =>
      destruct (fold_add_sample_config now (samples packet) q) as (H1 & H2 & H3 & H4)
  end.
  rewrite H1, H2, H3, H4. repeat split.
Qed.

Lemma feed_config (ns : list Notification) :
  forall p : EEGStreamProcessor,
    windowDuration (feed p ns) = windowDuration p /\
    samplingRate (feed p ns) = samplingRate p /\
    adcScale (feed p ns) = adcScale p /\
    analysisInterval (feed p ns) = analysisInterval p.
Proof.
  induction ns as [| n rest IH]; intros p; [repeat split|].
  unfold feed in *. cbn [fold_left].
  destruct (IH (processPacket p (snd n) (fst n))) as (H1 & H2 & H3 & H4).
  destruct (processPacket_config p (snd n) (fst n)) as (G1 & G2 & G3 & G4).
  rewrite H1, H2, H3, H4. repeat split; assumption.
Qed.

Lemma fold_add_sample_capacity (now : Z) (ss : list Sample) :
  forall p : EEGStreamProcessor,
    maxBufferSamples (fold_left (add_sample now) ss p) = maxBufferSamples p.
Proof.
  induction ss as [| s rest IH]; intros p; cbn [fold_left]; [reflexivity|].
  rewrite IH. apply add_sample_capacity.
Qed.

Lemma processPacket_capacity (p : EEGStreamProcessor) (data : Buffer) (now : Z) :
  maxBufferSamples (processPacket p data now) = maxBufferSamples p.
Proof.
  unfold processPacket.
  destruct (decodePacket p data) as [packet | e |]; try reflexivity.
  destruct (strict_eq (packetType packet) 1); [reflexivity|].
  destruct (negb (strict_eq (packetType packet) 2) || (length (samples packet) =? 0)%nat);
    [reflexivity|].
  cbn [maxBufferSamples]. rewrite fold_add_sample_capacity. reflexivity.
Qed.

Lemma feed_capacity (ns : list Notification) :
  forall p : EEGStreamProcessor, maxBufferSamples (feed p ns) = maxBufferSamples p.
Proof.
  induction ns as [| n rest IH]; intros p; [reflexivity|].
  unfold feed in *. cbn [fold_left]. rewrite IH. apply processPacket_capacity.
Qed.

(** Decoding is stateless.  The packets never change the configuration of
    the processor (window, rate, scale, capacity, analysis interval), and the
    decoder looks at nothing but the scale: a frame decodes to the same packet
    whatever the processor has handled before. *)
Theorem decoding_is_stateless (p : EEGStreamProcessor) (ns : list Notification)
    (data : Buffer) :
  decodePacket (feed p ns) data = decodePacket p data /\
  windowDuration (feed p ns) = windowDuration p /\
  samplingRate (feed p ns) = samplingRate p /\
  adcScale (feed p ns) = adcScale p /\
  analysisInterval (feed p ns) = analysisInterval p /\
  maxBufferSamples (feed p ns) = maxBufferSamples p /\
  (forall q : EEGStreamProcessor,
      adcScale q = adcScale p -> decodePacket q data = decodePacket p data).
Proof.
  destruct (feed_config ns p) as (H1 & H2 & H3 & H4).
  split; [apply decodePacket_adcScale; exact H3|].
  repeat (split; [assumption|]).
  split; [apply feed_capacity|].
  intros q Hq. apply decodePacket_adcScale. exact Hq.
Qed.

Lemma decoding_is_stateless_witness :
  decodePacket (constructor (mkOptions (Some 2.0%float) None None)) sample_frame =
  decodePacket default_processor sample_frame.
Proof.
  apply (proj2 (proj2 (proj2 (proj2 (proj2 (proj2
           (decoding_is_stateless default_processor [] sample_frame))))))).
  reflexivity.
Defined.

Lemma nth_of_nth_error (a b : Buffer) (i : nat) :
  nth_error a i = nth_error b i -> nth i a x00 = nth i b x00.
Proof.
  intros H. rewrite <- !nth_default_eq. unfold nth_default. rewrite H. reflexivity.
Qed.

(** The samples of a frame depend on its length, its type byte, its
    channel-count byte and the bytes from offset 12 up to the trailer, and on
    nothing else: not on the tag, on bytes 4 and 6, on the payload size or
    on the last ten bytes. *)
Theorem samples_depend_on (this : EEGStreamProcessor) (data data' : Buffer)
    (p p' : Packet) :
  length data' = length data ->
  index data' 5 = index data 5 ->
  index data' 7 = index data 7 ->
  (forall i, (12 <= i)%nat -> (i + 10 < length data)%nat ->
             nth_error data' i = nth_error data i) ->
  decodePacket this data = Normal p ->
  decodePacket this data' = Normal p' ->
  samples p' = samples p.
Proof.
  intros Hlen H5 H7 Hbytes Hdec Hdec'.
  pose proof (decodePacket_Normal_length this data p Hdec) as Hl.
  rewrite (decodePacket_ok this data Hl) in Hdec.
  rewrite (decodePacket_ok this data') in Hdec' by lia.
  injection Hdec as <-. injection Hdec' as <-. cbn [samples].
  rewrite H5, H7, Hlen.
  destruct (strict_eq (index data 5) 1); [reflexivity|].
  destruct (strict_eq (index data 5) 2); [|reflexivity].
  unfold samples_from. apply map_ext_in. intros k Hk.
  apply in_seq in Hk.
  assert (Hc : (k < record_count (length data))%nat) by lia.
  apply counted_record in Hc.
  unfold sample_at.
  rewrite !(nth_of_nth_error data' data) by (apply Hbytes; lia).
  reflexivity.
Qed.

Lemma samples_depend_on_witness :
  samples
    (mkPacket "XATA" (Some 2) (Some 3) 4294967295
       [sample_at default_processor sample_frame (Some 3) 12 0;
        sample_at default_processor sample_frame (Some 3) 19 1] None) =
  samples sample_frame_packet.
Proof.
  apply (samples_depend_on default_processor sample_frame
           ([x58; x41; x54; x41; xff; x02; xff; x03; xff; xff; xff; xff]
              ++ firstn 14 (skipn 12 sample_frame)
              ++ [x01; x02; x03; x04; x05; x06; x07; x08; x09; x0a])
           sample_frame_packet).
  - reflexivity.
  - reflexivity.
  - reflexivity.
  - intros i Hlo Hhi. cbn [length sample_frame] in Hhi.
    do 12 (destruct i as [| i]; [lia|]).
    do 14 (destruct i as [| i]; [reflexivity|]).
    lia.
  - vm_compute. reflexivity.
  - vm_compute. reflexivity.
Defined.

(* ================================================================== *)
(** ** More on the processor *)

(** The two ways a notification can go. *)
Lemma processPacket_cases (p : EEGStreamProcessor) (data : Buffer) (now : Z) :
  (is_sample_packet data = false /\ processPacket p data now = p) \/
  (is_sample_packet data = true /\
   (29 <= length data)%nat /\
   decodePacket p data =
     Normal {| header := toString_ascii data 0 4;
               packetType := index data 5;
               numChannels := index data 7;
               payloadSize := u32_at data 8;
               samples := samples_from p data (index data 7) 12 0
                            (record_count (length data));
               deviceModel := None |} /\
   processPacket p data now =
     end_packet now
       (fold_left (add_sample now)
          (samples_from p data (index data 7) 12 0 (record_count (length data)))
          (begin_packet now p))).
Proof.
  unfold is_sample_packet, processPacket.
  destruct (Nat.lt_ge_cases (length data) 12) as [Hshort | Hlong].
  - left. destruct (decodePacket_short p data Hshort) as [e ->].
    destruct (Nat.leb_spec 29 (length data)); [lia|].
    rewrite andb_false_r. split; reflexivity.
  - rewrite (decodePacket_ok p data Hlong). cbn [packetType samples].
    destruct (strict_eq (index data 5) 1) eqn:H1.
    + left. split; [|reflexivity].
      destruct (index data 5) as [z |]; cbn [strict_eq] in *; [|reflexivity].
      apply Z.eqb_eq in H1. subst z. reflexivity.
    + destruct (strict_eq (index data 5) 2) eqn:H2; cbn [negb orb andb];
        [|left; split; reflexivity].
      rewrite length_samples_from.
      pose proof (record_count_pos (length data)) as Hpos.
      destruct (Nat.leb_spec 29 (length data)) as [H29 | H29];
        destruct (Nat.eqb_spec (record_count (length data)) 0) as [Hz | Hnz];
        try lia.
      * right. split; [reflexivity|]. split; [exact H29|].
        split; reflexivity.
      * left. split; reflexivity.
Qed.

(** A notification that is not a sample packet changes nothing: a frame
    shorter than twelve bytes (the exception is caught), a status frame, a
    frame of any other type, and a type-2 frame too short for one record. *)
Theorem processPacket_ignores (p : EEGStreamProcessor) (data : Buffer) (now : Z) :
  ((length data < 12)%nat \/ index data 5 <> Some 2 \/ (length data < 29)%nat) ->
  processPacket p data now = p.
Proof.
  intros H.
  destruct (processPacket_cases p data now) as [[_ Hp] | (Hs & H29 & _)]; [exact Hp|].
  exfalso. unfold is_sample_packet in Hs.
  apply andb_true_iff in Hs. destruct Hs as [Ht _].
  destruct H as [H | [H | H]]; try lia.
  apply H. destruct (index data 5) as [z |]; cbn [strict_eq] in Ht; [|discriminate].
  apply Z.eqb_eq in Ht. subst z. reflexivity.
Qed.

Lemma processPacket_ignores_witness :
  processPacket default_processor status_frame 1000 = default_processor /\
  processPacket default_processor short_frame 1000 = default_processor /\
  processPacket default_processor [x44; x41] 1000 = default_processor.
Proof.
  split; [|split].
  - apply (processPacket_ignores default_processor status_frame 1000).
    right. left. vm_compute. discriminate.
  - apply (processPacket_ignores default_processor short_frame 1000).
    right. right. simpl. lia.
  - apply (processPacket_ignores default_processor [x44; x41] 1000).
    left. simpl. lia.
Defined.

Lemma list_sum_cons (a : nat) (l : list nat) : list_sum (a :: l) = (a + list_sum l)%nat.
Proof. reflexivity. Qed.

Lemma fold_add_sample_sampleCount (now : Z) (ss : list Sample) :
  forall p : EEGStreamProcessor,
    sampleCount (fold_left (add_sample now) ss p) = sampleCount p + Z.of_nat (length ss).
Proof.
  induction ss as [| s rest IH]; intros p; cbn [fold_left length]; [lia|].
  rewrite IH. unfold add_sample.
  destruct (map_get (channelBuffers p) (channel s)); cbn [sampleCount]; lia.
Qed.

Lemma processPacket_sampleCount (p : EEGStreamProcessor) (data : Buffer) (now : Z) :
  sampleCount (processPacket p data now) =
  sampleCount p +
  Z.of_nat (if is_sample_packet data then record_count (length data) else 0%nat).
Proof.
  destruct (processPacket_cases p data now) as [[-> ->] | (-> & _ & _ & ->)]; [lia|].
  cbn [end_packet sampleCount]. rewrite fold_add_sample_sampleCount.
  rewrite length_samples_from. reflexivity.
Qed.

Lemma feed_sampleCount (ns : list Notification) :
  forall p : EEGStreamProcessor,
    sampleCount (feed p ns) = sampleCount p + Z.of_nat (count_samples ns).
Proof.
  induction ns as [| n rest IH]; intros p.
  - unfold count_samples. cbn. lia.
  - unfold feed in *. cbn [fold_left]. rewrite IH, processPacket_sampleCount.
    unfold count_samples. cbn [map]. rewrite list_sum_cons. lia.
Qed.

Lemma list_sum_map_set (m : JsMap (list Entry)) (k : jsint) (v : list Entry) :
  (list_sum (map (fun cb => length (snd cb)) (map_set m k v))
   + length (match map_get m k with Some b => b | None => [] end) =
   list_sum (map (fun cb => length (snd cb)) m) + length v)%nat.
Proof.
  induction m as [| [k' v'] rest IH]; cbn [map_set map_get map snd length].
  - cbn. lia.
  - destruct (jsint_eqb k' k); cbn [map snd]; rewrite !list_sum_cons; lia.
Qed.

Lemma push_trim_length (max : jsint) (buf : list Entry) (e : Entry) :
  (length (push_trim max buf e) <= S (length buf))%nat.
Proof.
  unfold push_trim.
  destruct (length_gt (length (buf ++ [e])) max).
  - destruct buf as [| x rest]; cbn [app tl length]; [lia|].
    rewrite length_app. cbn [length]. lia.
  - rewrite length_app. cbn [length]. lia.
Qed.

Lemma add_sample_buffered (now : Z) (p : EEGStreamProcessor) (s : Sample) :
  (buffered (add_sample now p s) <= S (buffered p))%nat.
Proof.
  unfold buffered, add_sample.
  destruct (map_get (channelBuffers p) (channel s)) as [old |] eqn:Hget;
    cbn [channelBuffers].
  - pose proof (list_sum_map_set (channelBuffers p) (channel s)
                  (push_trim (maxBufferSamples p) old
                     {| time := now; voltage := voltageUv s |})) as H.
    rewrite Hget in H.
    pose proof (push_trim_length (maxBufferSamples p) old
                  {| time := now; voltage := voltageUv s |}). lia.
  - pose proof (list_sum_map_set (channelBuffers p) (channel s)
                  (push_trim (maxBufferSamples p) []
                     {| time := now; voltage := voltageUv s |})) as H.
    rewrite Hget in H.
    pose proof (push_trim_length (maxBufferSamples p) []
                  {| time := now; voltage := voltageUv s |}) as Hl.
    cbn [length] in *. lia.
Qed.

Lemma fold_add_sample_buffered (now : Z) (ss : list Sample) :
  forall p : EEGStreamProcessor,
    (buffered (fold_left (add_sample now) ss p) <= buffered p + length ss)%nat.
Proof.
  induction ss as [| s rest IH]; intros p; cbn [fold_left length]; [lia|].
  pose proof (IH (add_sample now p s)). pose proof (add_sample_buffered now p s). lia.
Qed.

Lemma processPacket_buffered (p : EEGStreamProcessor) (data : Buffer) (now : Z) :
  Z.of_nat (buffered (processPacket p data now)) - sampleCount (processPacket p data now)
  <= Z.of_nat (buffered p) - sampleCount p.
Proof.
  rewrite processPacket_sampleCount.
  destruct (processPacket_cases p data now) as [[-> ->] | (-> & _ & _ & ->)]; [lia|].
  unfold buffered at 1. cbn [end_packet channelBuffers]. fold (buffered
    (fold_left (add_sample now)
       (samples_from p data (index data 7) 12 0 (record_count (length data)))
       (begin_packet now p))).
  pose proof (fold_add_sample_buffered now
                (samples_from p data (index data 7) 12 0 (record_count (length data)))
                (begin_packet now p)) as H.
  rewrite length_samples_from in H.
  change (buffered (begin_packet now p)) with (buffered p) in H. lia.
Qed.

(** The counters.  From a new processor, [sampleCount] is the number of
    whole records in the sample packets handled and [packetCount] the number
    of those packets; a packet counts for at least one sample, and the
    buffers together never hold more entries than samples were counted. *)
Theorem sample_accounting (options : Options) (ns : list Notification) :
  sampleCount (feed (constructor options) ns) = Z.of_nat (count_samples ns) /\
  packetCount (feed (constructor options) ns) = Z.of_nat (count_sample_packets ns) /\
  packetCount (feed (constructor options) ns) <= sampleCount (feed (constructor options) ns) /\
  Z.of_nat (buffered (feed (constructor options) ns)) <=
    sampleCount (feed (constructor options) ns).
Proof.
  rewrite feed_sampleCount, feed_packetCount. cbn [constructor sampleCount packetCount].
  split; [lia|]. split; [lia|]. split.
  - induction ns as [| n rest IH]; [cbn; lia|].
    unfold count_samples, count_sample_packets in *. cbn [map filter].
    rewrite list_sum_cons.
    destruct (is_sample_packet (snd n)) eqn:Hs; cbn [length]; [|lia].
    unfold is_sample_packet in Hs. apply andb_true_iff in Hs. destruct Hs as [_ H29].
    apply Nat.leb_le in H29. apply record_count_pos in H29. lia.
  - assert (H : forall p, Z.of_nat (buffered (feed p ns)) - sampleCount (feed p ns)
                          <= Z.of_nat (buffered p) - sampleCount p).
    { induction ns as [| n rest IH]; intros p; [cbn; lia|].
      unfold feed in *. cbn [fold_left].
      pose proof (IH (processPacket p (snd n) (fst n))).
      pose proof (processPacket_buffered p (snd n) (fst n)). lia. }
    specialize (H (constructor options)).
    rewrite feed_sampleCount in H. cbn in H. lia.
Qed.

Lemma map_get_None_keys {V : Type} (m : JsMap V) (k : jsint) :
  map_get m k = None <-> existsb (fun k' => jsint_eqb k' k) (map fst m) = false.
Proof.
  induction m as [| [k' v] rest IH]; cbn [map_get map fst existsb].
  - split; reflexivity.
  - destruct (jsint_eqb k' k); cbn [orb]; [split; discriminate | exact IH].
Qed.

Lemma keys_map_set_present {V : Type} (m : JsMap V) (k : jsint) (v : V) :
  map_get m k <> None -> map fst (map_set m k v) = map fst m.
Proof.
  induction m as [| [k' v'] rest IH]; cbn [map_get map_set map fst].
  - intros H. exfalso. apply H. reflexivity.
  - destruct (jsint_eqb k' k); cbn [map fst]; [reflexivity|].
    intros H. rewrite IH by exact H. reflexivity.
Qed.

Lemma keys_map_set_absent {V : Type} (m : JsMap V) (k : jsint) (v : V) :
  map_get m k = None -> map fst (map_set m k v) = map fst m ++ [k].
Proof.
  induction m as [| [k' v'] rest IH]; cbn [map_get map_set map fst app].
  - reflexivity.
  - destruct (jsint_eqb k' k); cbn [map fst]; [discriminate|].
    intros H. rewrite IH by exact H. reflexivity.
Qed.

Lemma absent_not_In (keys : list jsint) (k : jsint) :
  existsb (fun k' => jsint_eqb k' k) keys = false -> ~ In k keys.
Proof.
  intros H Hin.
  assert (Ht : existsb (fun k' => jsint_eqb k' k) keys = true).
  { apply existsb_exists. exists k. split; [exact Hin | apply jsint_eqb_eq; reflexivity]. }
  rewrite Ht in H. discriminate.
Qed.

Lemma NoDup_snoc (keys : list jsint) (k : jsint) :
  NoDup keys -> ~ In k keys -> NoDup (keys ++ [k]).
Proof.
  intros Hnd Hk. induction Hnd as [| x l Hx Hnd IH]; cbn [app].
  - constructor; [intros [] | constructor].
  - constructor.
    + rewrite in_app_iff. intros [H | [H | []]]; [contradiction|].
      apply Hk. left. symmetry. exact H.
    + apply IH. intros H. apply Hk. right. exact H.
Qed.

(** The two maps of [p] have the same keys in the same order, no key
    twice, and every key is in [allowed]. *)
Lemma add_sample_keys (allowed : list jsint) (now : Z) (p : EEGStreamProcessor)
    (s : Sample) :
  In (channel s) allowed ->
  map fst (channelBuffers p) = map fst (lastAnalysisTime p) ->
  NoDup (map fst (channelBuffers p)) ->
  incl (map fst (channelBuffers p)) allowed ->
  map fst (channelBuffers (add_sample now p s)) =
    map fst (lastAnalysisTime (add_sample now p s)) /\
  NoDup (map fst (channelBuffers (add_sample now p s))) /\
  incl (map fst (channelBuffers (add_sample now p s))) allowed.
Proof.
  intros Hch Hkeys Hnd Hincl. unfold add_sample.
  destruct (map_get (channelBuffers p) (channel s)) as [old |] eqn:Hget;
    cbn [channelBuffers lastAnalysisTime].
  - rewrite keys_map_set_present by (rewrite Hget; discriminate).
    repeat split; assumption.
  - pose proof Hget as Habs. apply map_get_None_keys in Habs.
    rewrite (keys_map_set_absent (channelBuffers p)) by exact Hget.
    rewrite (keys_map_set_absent (lastAnalysisTime p))
      by (apply map_get_None_keys; rewrite <- Hkeys; exact Habs).
    split; [rewrite Hkeys; reflexivity|]. split.
    + apply NoDup_snoc; [exact Hnd | apply absent_not_In; exact Habs].
    + intros k Hk. apply in_app_iff in Hk. destruct Hk as [Hk | [<- | []]];
        [apply Hincl; exact Hk | exact Hch].
Qed.

Lemma fold_add_sample_keys (allowed : list jsint) (now : Z) (ss : list Sample) :
  forall p : EEGStreamProcessor,
    (forall s, In s ss -> In (channel s) allowed) ->
    map fst (channelBuffers p) = map fst (lastAnalysisTime p) ->
    NoDup (map fst (channelBuffers p)) ->
    incl (map fst (channelBuffers p)) allowed ->
    map fst (channelBuffers (fold_left (add_sample now) ss p)) =
      map fst (lastAnalysisTime (fold_left (add_sample now) ss p)) /\
    NoDup (map fst (channelBuffers (fold_left (add_sample now) ss p))) /\
    incl (map fst (channelBuffers (fold_left (add_sample now) ss p))) allowed.
Proof.
  induction ss as [| s rest IH]; intros p Hss Hkeys Hnd Hincl; cbn [fold_left].
  - repeat split; assumption.
  - destruct (add_sample_keys allowed now p s) as (K1 & K2 & K3);
      try assumption; [apply Hss; left; reflexivity|].
    apply IH; try assumption.
    intros s' Hs'. apply Hss. right. exact Hs'.
Qed.

Lemma refresh_analysis_keys (now interval : Z) (m : JsMap Z) :
  map fst (refresh_analysis now interval m) = map fst m.
Proof.
  unfold refresh_analysis. rewrite map_map. apply map_ext.
  intros [ch t]. destruct (interval <=? now - t); reflexivity.
Qed.

Lemma sample_at_channel_key (this : EEGStreamProcessor) (data : Buffer)
    (offset : nat) (n : Z) :
  In (channel (sample_at this data (index data 7) offset n)) channel_keys.
Proof.
  unfold sample_at, sample_of_record. cbn [channel]. unfold rem.
  destruct (index data 7) as [d |] eqn:Hd; [|left; reflexivity].
  destruct (Z.eqb_spec d 0) as [_ | Hnz]; [left; reflexivity|].
  apply index_byte_range in Hd.
  set (idx := byte_val (nth (offset + 4) data x00)
              + byte_val (nth (offset + 5) data x00) * 2 ^ 8).
  assert (Hidx : 0 <= idx).
  { pose proof (byte_val_range (nth (offset + 4) data x00)).
    pose proof (byte_val_range (nth (offset + 5) data x00)). unfold idx. lia. }
  pose proof (Z.rem_bound_pos idx d Hidx ltac:(lia)) as Hr.
  right. apply in_map_iff. exists (Z.to_nat (Z.rem idx d)).
  split; [f_equal; lia | apply in_seq; lia].
Qed.

Lemma processPacket_keys (p : EEGStreamProcessor) (data : Buffer) (now : Z) :
  map fst (channelBuffers p) = map fst (lastAnalysisTime p) ->
  NoDup (map fst (channelBuffers p)) ->
  incl (map fst (channelBuffers p)) channel_keys ->
  map fst (channelBuffers (processPacket p data now)) =
    map fst (lastAnalysisTime (processPacket p data now)) /\
  NoDup (map fst (channelBuffers (processPacket p data now))) /\
  incl (map fst (channelBuffers (processPacket p data now))) channel_keys.
Proof.
  intros Hkeys Hnd Hincl.
  destruct (processPacket_cases p data now) as [[_ ->] | (_ & _ & _ & ->)];
    [repeat split; assumption|].
  cbn [end_packet channelBuffers lastAnalysisTime].
  rewrite refresh_analysis_keys.
  apply fold_add_sample_keys; try assumption.
  intros s Hs. apply In_samples_from in Hs. destruct Hs as (k & _ & ->).
  replace (sample_at p data (index data 7) (12 + 7 * k) (Z.of_nat (0 + k)))
    with (sample_at (begin_packet now p) data (index data 7) (12 + 7 * k) (Z.of_nat (0 + k)))
    by reflexivity.
  apply sample_at_channel_key.
Qed.

Lemma feed_keys (ns : list Notification) :
  forall p : EEGStreamProcessor,
    map fst (channelBuffers p) = map fst (lastAnalysisTime p) ->
    NoDup (map fst (channelBuffers p)) ->
    incl (map fst (channelBuffers p)) channel_keys ->
    map fst (channelBuffers (feed p ns)) = map fst (lastAnalysisTime (feed p ns)) /\
    NoDup (map fst (channelBuffers (feed p ns))) /\
    incl (map fst (channelBuffers (feed p ns))) channel_keys.
Proof.
  induction ns as [| n rest IH]; intros p Hkeys Hnd Hincl.
  - repeat split; assumption.
  - unfold feed in *. cbn [fold_left].
    destruct (processPacket_keys p (snd n) (fst n)) as (K1 & K2 & K3); try assumption.
    apply IH; assumption.
Qed.

(** The channels of a processor.  Whatever notifications a new processor
    has handled, the channels with a buffer are the channels with an analysis
    time, in the same order of first appearance, each of them once; every
    channel is [NaN] or a number from 0 to 254, so there are never more than
    256 buffers. *)
Theorem channel_maps_agree (options : Options) (ns : list Notification) :
  map fst (channelBuffers (feed (constructor options) ns)) =
    map fst (lastAnalysisTime (feed (constructor options) ns)) /\
  NoDup (map fst (channelBuffers (feed (constructor options) ns))) /\
  (forall ch, In ch (map fst (channelBuffers (feed (constructor options) ns))) ->
              ch = JNaN \/ exists c, ch = JFin c /\ 0 <= c <= 254) /\
  (length (channelBuffers (feed (constructor options) ns)) <= 256)%nat.
Proof.
  destruct (feed_keys ns (constructor options)) as (K1 & K2 & K3).
  - reflexivity.
  - constructor.
  - intros k [].
  - split; [exact K1|]. split; [exact K2|]. split.
    + intros ch Hch. apply K3 in Hch. destruct Hch as [<- | Hch]; [left; reflexivity|].
      right. apply in_map_iff in Hch. destruct Hch as (c & <- & Hc).
      apply in_seq in Hc. exists (Z.of_nat c). split; [reflexivity | lia].
    + pose proof (NoDup_incl_length K2 K3) as H.
      rewrite length_map in H. exact H.
Qed.

Lemma channel_maps_agree_witness :
  JFin 1 = JNaN \/ exists c, JFin 1 = JFin c /\ 0 <= c <= 254.
Proof.
  apply (proj1 (proj2 (proj2 (channel_maps_agree (mkOptions None None None)
                                [(1000, sample_frame)]))) (JFin 1)).
  vm_compute. left. reflexivity.
Defined.

(* ------------------------------------------------------------------ *)
(** *** What a buffer holds *)

Lemma lastn_all {A : Type} (n : nat) (l : list A) :
  (length l <= n)%nat -> lastn n l = l.
Proof.
  intros H. unfold lastn. replace (length l - n)%nat with 0%nat by lia. reflexivity.
Qed.

Lemma length_lastn {A : Type} (n : nat) (l : list A) :
  length (lastn n l) = Nat.min n (length l).
Proof.
  unfold lastn. rewrite length_skipn. lia.
Qed.

Lemma lastn_app_lastn {A : Type} (n : nat) (l m : list A) :
  lastn n (lastn n l ++ m) = lastn n (l ++ m).
Proof.
  destruct (Nat.le_gt_cases (length l) n) as [Hle | Hgt].
  - rewrite (lastn_all n l Hle). reflexivity.
  - assert (Hsplit : l = firstn (length l - n) l ++ lastn n l).
    { unfold lastn. symmetry. apply firstn_skipn. }
    assert (Hpre : length (firstn (length l - n) l) = (length l - n)%nat).
    { rewrite length_firstn. lia. }
    assert (Hsuf : length (lastn n l) = n) by (rewrite length_lastn; lia).
    set (pre := firstn (length l - n) l) in *.
    set (suf := lastn n l) in *.
    clearbody pre suf. rewrite Hsplit. clear Hsplit Hpre.
    unfold lastn. rewrite <- app_assoc, !length_app, Hsuf.
    replace (n + length m - n)%nat with (length m) by lia.
    replace (length pre + (n + length m) - n)%nat with (length pre + length m)%nat by lia.
    rewrite (skipn_app _ pre).
    rewrite (skipn_all2 pre) by lia. cbn [app].
    f_equal. lia.
Qed.

Lemma tl_skipn {A : Type} (l : list A) : tl l = skipn 1 l.
Proof. destruct l; reflexivity. Qed.

Lemma retained_nil (max : jsint) : retained max [] = [].
Proof. destruct max; reflexivity. Qed.

Lemma retained_app_retained (max : jsint) (l m : list Entry) :
  retained max (retained max l ++ m) = retained max (l ++ m).
Proof.
  destruct max; cbn [retained]; try reflexivity.
  apply lastn_app_lastn.
Qed.

(** One append to a buffer that holds what it should. *)
Lemma push_trim_retained (max : jsint) (l : list Entry) (e : Entry) :
  push_trim max (retained max l) e = retained max (l ++ [e]).
Proof.
  rewrite <- retained_app_retained. unfold push_trim.
  destruct max as [z | | |]; cbn [retained length_gt app tl]; try reflexivity.
  set (c := Z.to_nat z). set (buf := lastn c l).
  assert (Hlen : (length buf <= c)%nat) by (unfold buf; rewrite length_lastn; lia).
  rewrite length_app. cbn [length].
  destruct (Z.ltb_spec z (Z.of_nat (length buf + 1))) as [Hgt | Hle].
  - rewrite tl_skipn. unfold lastn. rewrite length_app. cbn [length].
    f_equal. lia.
  - symmetry. apply lastn_all. rewrite length_app. cbn [length]. lia.
Qed.

Lemma fold_add_sample_retained (now : Z) (ch : jsint) (ss : list Sample) :
  forall (p : EEGStreamProcessor) (history : list Entry),
    buffer_of p ch = retained (maxBufferSamples p) history ->
    buffer_of (fold_left (add_sample now) ss p) ch =
    retained (maxBufferSamples p)
      (history ++ map (fun s => {| time := now; voltage := voltageUv s |})
                      (filter (fun s => jsint_eqb (channel s) ch) ss)).
Proof.
  induction ss as [| s rest IH]; intros p history Hbuf; cbn [fold_left filter map].
  - rewrite app_nil_r. exact Hbuf.
  - destruct (add_sample_buffers now p s) as [Hsame Hother].
    rewrite <- (add_sample_capacity now p s).
    destruct (jsint_eqb (channel s) ch) eqn:Hch.
    + apply jsint_eqb_eq in Hch. subst ch. cbn [map].
      replace (history ++ {| time := now; voltage := voltageUv s |} ::
                 map (fun s0 => {| time := now; voltage := voltageUv s0 |})
                     (filter (fun s0 => jsint_eqb (channel s0) (channel s)) rest))
        with ((history ++ [{| time := now; voltage := voltageUv s |}]) ++
                 map (fun s0 => {| time := now; voltage := voltageUv s0 |})
                     (filter (fun s0 => jsint_eqb (channel s0) (channel s)) rest))
        by (rewrite <- app_assoc; reflexivity).
      apply IH. rewrite Hsame, Hbuf, add_sample_capacity.
      apply push_trim_retained.
    + apply IH. rewrite (Hother ch Hch), add_sample_capacity. exact Hbuf.
Qed.

Lemma channel_entries_ignored (p : EEGStreamProcessor) (ch : jsint) (n : Notification) :
  is_sample_packet (snd n) = false -> channel_entries p ch n = [].
Proof.
  intros Hs. unfold channel_entries.
  destruct (decodePacket p (snd n)) as [packet | e |] eqn:Hdec; try reflexivity.
  pose proof (decoded_samples_length p (snd n) packet Hdec) as Hlen.
  rewrite Hs in Hlen. destruct (samples packet); [|discriminate].
  destruct (strict_eq (packetType packet) 2); reflexivity.
Qed.

Lemma processPacket_retained (p : EEGStreamProcessor) (data : Buffer) (now : Z)
    (ch : jsint) (history : list Entry) :
  buffer_of p ch = retained (maxBufferSamples p) history ->
  buffer_of (processPacket p data now) ch =
  retained (maxBufferSamples p) (history ++ channel_entries p ch (now, data)).
Proof.
  intros Hbuf.
  destruct (processPacket_cases p data now) as [[Hs ->] | (Hs & _ & Hdec & ->)].
  - rewrite channel_entries_ignored by exact Hs. rewrite app_nil_r. exact Hbuf.
  - unfold channel_entries. cbn [snd fst]. rewrite Hdec. cbn [packetType samples].
    unfold is_sample_packet in Hs. apply andb_true_iff in Hs. destruct Hs as [-> _].
    apply (fold_add_sample_retained now ch _ (begin_packet now p) history).
    exact Hbuf.
Qed.

Lemma channel_entries_adcScale (p q : EEGStreamProcessor) (ch : jsint) (n : Notification) :
  adcScale p = adcScale q -> channel_entries p ch n = channel_entries q ch n.
Proof.
  intros H. unfold channel_entries. rewrite (decodePacket_adcScale p q (snd n) H).
  reflexivity.
Qed.

Lemma feed_retained (ch : jsint) (ns : list Notification) :
  forall (p : EEGStreamProcessor) (history : list Entry),
    buffer_of p ch = retained (maxBufferSamples p) history ->
    buffer_of (feed p ns) ch =
    retained (maxBufferSamples p) (history ++ flat_map (channel_entries p ch) ns).
Proof.
  induction ns as [| [now data] rest IH]; intros p history Hbuf.
  - cbn [feed fold_left flat_map]. rewrite app_nil_r. exact Hbuf.
  - unfold feed in *. cbn [fold_left flat_map fst snd].
    rewrite app_assoc.
    rewrite <- (processPacket_capacity p data now).
    rewrite (flat_map_ext (channel_entries p ch)
               (channel_entries (processPacket p data now) ch)).
    + apply IH. rewrite processPacket_capacity.
      apply processPacket_retained. exact Hbuf.
    + intros n. apply channel_entries_adcScale. symmetry.
      apply (processPacket_config p data now).
Qed.

Lemma new_processor_retained (options : Options) (ns : list Notification)
    (ch : jsint) :
  buffer_of (feed (constructor options) ns) ch =
  retained (maxBufferSamples (constructor options))
    (flat_map (channel_entries (constructor options) ch) ns).
Proof.
  apply (feed_retained ch ns (constructor options) []).
  rewrite retained_nil. reflexivity.
Qed.

(** The buffer of a channel is a sliding window over the channel's
    samples.  Whatever notifications a new processor has handled, the buffer
    of [ch] holds the entries of all the samples of channel [ch], in the
    order of arrival and, inside a packet, of the records, cut down to the
    last [maxBufferSamples] of them.  (With an infinite capacity or [NaN]
    nothing is ever dropped; with a negative one the buffer stays empty.) *)
Theorem buffer_is_recent_window (options : Options) (ns : list Notification)
    (ch : jsint) :
  buffer_of (feed (constructor options) ns) ch =
  retained (maxBufferSamples (constructor options))
    (flat_map (channel_entries (constructor options) ch) ns).
Proof.
  apply new_processor_retained.
Qed.

Example window_of_two :
  map time
    (buffer_of (feed (constructor (mkOptions (Some 0.0078125%float) None None))
                     [(1000, sample_frame); (1040, sample_frame); (1080, sample_frame)])
               (JFin 2)) = [1040; 1080].
Proof. vm_compute. reflexivity. Qed.

(* ------------------------------------------------------------------ *)
(** *** Times *)

Lemma channel_entries_time (p : EEGStreamProcessor) (ch : jsint) (n : Notification)
    (e : Entry) :
  In e (channel_entries p ch n) -> time e = fst n.
Proof.
  unfold channel_entries.
  destruct (decodePacket p (snd n)) as [packet | x |]; try (intros []).
  destruct (strict_eq (packetType packet) 2); [|intros []].
  rewrite in_map_iff. intros (s & <- & _). reflexivity.
Qed.

Lemma StronglySorted_app {A : Type} (R : A -> A -> Prop) (a b : list A) :
  StronglySorted R a -> StronglySorted R b ->
  (forall x y, In x a -> In y b -> R x y) ->
  StronglySorted R (a ++ b).
Proof.
  intros Ha Hb Hab. induction Ha as [| x l Hl IH Hx]; cbn [app]; [exact Hb|].
  constructor.
  - apply IH. intros u v Hu Hv. apply Hab; [right; exact Hu | exact Hv].
  - apply Forall_app. split; [exact Hx|].
    apply Forall_forall. intros y Hy. apply Hab; [left; reflexivity | exact Hy].
Qed.

Lemma StronglySorted_skipn {A : Type} (R : A -> A -> Prop) (k : nat) (l : list A) :
  StronglySorted R l -> StronglySorted R (skipn k l).
Proof.
  revert l. induction k as [| k IH]; intros l Hl; [exact Hl|].
  destruct l as [| x l]; [constructor|].
  cbn [skipn]. apply IH. inversion Hl. assumption.
Qed.

Lemma same_time_sorted (t : Z) (l : list Entry) :
  (forall e, In e l -> time e = t) -> chronological l.
Proof.
  intros H. induction l as [| x l IH]; [constructor|].
  constructor.
  - apply IH. intros e He. apply H. right. exact He.
  - apply Forall_forall. intros e He.
    rewrite (H x (or_introl eq_refl)), (H e (or_intror He)). lia.
Qed.

Lemma flat_map_entries_sorted (p : EEGStreamProcessor) (ch : jsint)
    (ns : list Notification) :
  StronglySorted Z.le (map fst ns) ->
  chronological (flat_map (channel_entries p ch) ns).
Proof.
  induction ns as [| n rest IH]; intros Hs; cbn [flat_map]; [constructor|].
  cbn [map] in Hs. inversion Hs as [| t ts Hrest Hall]; subst.
  apply StronglySorted_app.
  - apply (same_time_sorted (fst n)). intros e. apply channel_entries_time.
  - apply IH. exact Hrest.
  - intros x y Hx Hy. apply channel_entries_time in Hx.
    apply in_flat_map in Hy. destruct Hy as (m & Hm & Hy).
    apply channel_entries_time in Hy. rewrite Hx, Hy.
    rewrite Forall_forall in Hall. apply Hall. apply in_map. exact Hm.
Qed.

Lemma retained_sorted (max : jsint) (l : list Entry) :
  chronological l -> chronological (retained max l).
Proof.
  intros H. destruct max; cbn [retained]; try exact H; [|constructor].
  apply StronglySorted_skipn. exact H.
Qed.

Lemma In_retained (max : jsint) (l : list Entry) (e : Entry) :
  In e (retained max l) -> In e l.
Proof.
  destruct max; cbn [retained]; try (intros H; exact H); [|intros []].
  unfold lastn. intros H.
  rewrite <- (firstn_skipn (length l - Z.to_nat z) l).
  apply in_or_app. right. exact H.
Qed.

(** Buffers are in chronological order.  When the clock does not go
    backwards between notifications, every buffer is sorted by time, and the
    time of each of its entries is the time of one of the notifications. *)
Theorem buffers_chronological (options : Options) (ns : list Notification)
    (ch : jsint) :
  StronglySorted Z.le (map fst ns) ->
  chronological (buffer_of (feed (constructor options) ns) ch) /\
  forall e, In e (buffer_of (feed (constructor options) ns) ch) ->
            exists n, In n ns /\ is_sample_packet (snd n) = true /\ time e = fst n.
Proof.
  intros Hs. rewrite new_processor_retained. split.
  - apply retained_sorted. apply flat_map_entries_sorted. exact Hs.
  - intros e He. apply In_retained in He.
    apply in_flat_map in He. destruct He as (n & Hn & He).
    exists n. split; [exact Hn|]. split; [|apply channel_entries_time in He; exact He].
    destruct (is_sample_packet (snd n)) eqn:Hsp; [reflexivity|].
    rewrite channel_entries_ignored in He by exact Hsp. destruct He.
Qed.

Lemma buffers_chronological_witness :
  chronological
    (buffer_of (feed (constructor (mkOptions None None None))
                     [(1000, sample_frame); (1040, sample_frame)]) (JFin 1)).
Proof.
  apply (buffers_chronological (mkOptions None None None)
           [(1000, sample_frame); (1040, sample_frame)] (JFin 1)).
  cbn [map fst].
  apply SSorted_cons.
  - apply SSorted_cons; [apply SSorted_nil | apply Forall_nil].
  - apply Forall_cons; [lia | apply Forall_nil].
Defined.

Lemma fold_add_sample_startTime (now : Z) (ss : list Sample) :
  forall p : EEGStreamProcessor,
    startTime (fold_left (add_sample now) ss p) = startTime p /\
    analysisInterval (fold_left (add_sample now) ss p) = analysisInterval p.
Proof.
  induction ss as [| s rest IH]; intros p; cbn [fold_left]; [split; reflexivity|].
  destruct (IH (add_sample now p s)) as [-> ->]. unfold add_sample.
  destruct (map_get (channelBuffers p) (channel s)); split; reflexivity.
Qed.

Lemma processPacket_startTime (p : EEGStreamProcessor) (data : Buffer) (now : Z) :
  startTime (processPacket p data now) =
  if is_sample_packet data
  then (if startTime_unset (startTime p) then Some now else startTime p)
  else startTime p.
Proof.
  destruct (processPacket_cases p data now) as [[-> ->] | (-> & _ & _ & ->)];
    [reflexivity|].
  cbn [end_packet startTime].
  rewrite (proj1 (fold_add_sample_startTime now _ (begin_packet now p))).
  reflexivity.
Qed.

Lemma feed_startTime_set (ns : list Notification) :
  forall (p : EEGStreamProcessor) (t : Z),
    startTime p = Some t -> t <> 0 -> startTime (feed p ns) = Some t.
Proof.
  induction ns as [| n rest IH]; intros p t Hp Ht; [exact Hp|].
  unfold feed in *. cbn [fold_left]. apply IH; [|exact Ht].
  rewrite processPacket_startTime, Hp. cbn [startTime_unset].
  destruct (Z.eqb_spec t 0); [contradiction|].
  destruct (is_sample_packet (snd n)); reflexivity.
Qed.

(** The start time.  When no notification is handled at time 0,
    [startTime] is the time of the first sample packet and stays what it is
    from then on; before the first sample packet it is [null]. *)
Theorem startTime_is_first_sample (options : Options) (ns : list Notification) :
  Forall (fun n => fst n <> 0) ns ->
  startTime (feed (constructor options) ns) = first_sample_time ns.
Proof.
  assert (H : forall p, startTime p = None -> Forall (fun n => fst n <> 0) ns ->
                        startTime (feed p ns) = first_sample_time ns).
  { induction ns as [| n rest IH]; intros p Hp Hnz; [exact Hp|].
    inversion Hnz as [| x l Hx Hrest]; subst.
    unfold feed in *. cbn [fold_left]. unfold first_sample_time. cbn [find].
    destruct (is_sample_packet (snd n)) eqn:Hs.
    - cbn [option_map].
      apply (feed_startTime_set rest _ (fst n)); [|exact Hx].
      rewrite processPacket_startTime, Hs, Hp. reflexivity.
    - apply IH; [|exact Hrest].
      rewrite processPacket_startTime, Hs. exact Hp. }
  apply H. reflexivity.
Qed.

Lemma startTime_is_first_sample_witness :
  startTime (feed (constructor (mkOptions None None None))
                  [(990, status_frame); (1000, sample_frame); (1040, sample_frame)]) =
  first_sample_time [(990, status_frame); (1000, sample_frame); (1040, sample_frame)].
Proof.
  apply (startTime_is_first_sample (mkOptions None None None)
           [(990, status_frame); (1000, sample_frame); (1040, sample_frame)]).
  repeat constructor; cbn; lia.
Defined.

(** After a sample packet no channel is overdue.  Once a new processor has
    handled a sample packet at time [now], the analysis time [t] of every
    channel satisfies [now - t < 2000]: a channel that was due has been
    analysed and reset to [now]. *)
Theorem analysis_never_overdue (options : Options) (ns : list Notification)
    (data : Buffer) (now : Z) (ch : jsint) (t : Z) :
  is_sample_packet data = true ->
  In (ch, t) (lastAnalysisTime (processPacket (feed (constructor options) ns) data now)) ->
  now - t < 2000.
Proof.
  intros Hs Hin.
  destruct (processPacket_cases (feed (constructor options) ns) data now)
    as [[Hs' _] | (_ & _ & _ & Hp)]; [congruence|].
  rewrite Hp in Hin. cbn [end_packet lastAnalysisTime] in Hin.
  rewrite (proj2 (fold_add_sample_startTime now _ _)) in Hin.
  change (analysisInterval (begin_packet now (feed (constructor options) ns)))
    with (analysisInterval (feed (constructor options) ns)) in Hin.
  destruct (feed_config ns (constructor options)) as (_ & _ & _ & Hint).
  rewrite Hint in Hin. cbn [constructor analysisInterval] in Hin.
  unfold refresh_analysis in Hin. apply in_map_iff in Hin.
  destruct Hin as ([ch' t'] & Heq & _).
  destruct (Z.leb_spec 2000 (now - t')) as [Hdue | Hnot];
    injection Heq as <- <-; lia.
Qed.

Lemma analysis_never_overdue_witness : 5000 - 5000 < 2000.
Proof.
  apply (analysis_never_overdue (mkOptions None None None) [(1000, sample_frame)]
           sample_frame 5000 (JFin 1) 5000).
  - reflexivity.
  - vm_compute. left. reflexivity.
Defined.

(* ================================================================== *)
(** ** The analysis window *)

(** [analyzeChannel] looks at nothing for a channel without a buffer or
    with fewer than ten entries.  Otherwise, with a window of
    [w = floor(windowDuration * samplingRate)] samples: for [w >= 10] it
    analyses the last [w] voltages of the buffer (all of them when there are
    no more than [w]); for [1 <= w < 10] it analyses nothing, the window being
    shorter than ten; for [w = 0] it analyses the whole buffer, [slice(-0)]
    being [slice(0)]. *)
Theorem analyzeChannel_window (p : EEGStreamProcessor) (ch : jsint) :
  (map_get (channelBuffers p) ch = None -> analyzeChannel p ch = None) /\
  (forall buf, map_get (channelBuffers p) ch = Some buf ->
               (length buf < 10)%nat -> analyzeChannel p ch = None) /\
  (forall buf w,
      map_get (channelBuffers p) ch = Some buf ->
      (10 <= length buf)%nat ->
      Math_floor (PrimFloat.mul (windowDuration p) (samplingRate p)) = JFin w ->
      (10 <= w ->
         analyzeChannel p ch = Some (lastn (Z.to_nat w) (map voltage buf))) /\
      (1 <= w < 10 -> analyzeChannel p ch = None) /\
      (w = 0 -> analyzeChannel p ch = Some (map voltage buf))).
Proof.
  unfold analyzeChannel. split; [intros ->; reflexivity|]. split.
  - intros buf -> Hlen.
    destruct (Nat.ltb_spec (length buf) 10); [reflexivity | lia].
  - intros buf w -> Hlen ->.
    destruct (Nat.ltb_spec (length buf) 10) as [Hlt | _]; [lia|].
    cbn [length_gt jsint_opp slice_from].
    set (v := map voltage buf).
    assert (Hlv : length v = length buf) by (unfold v; apply length_map).
    clearbody v.
    split; [|split].
    + intros Hw. destruct (Z.ltb_spec w (Z.of_nat (length v))) as [Hgt | Hle].
      * destruct (Z.ltb_spec (- w) 0); [|lia].
        replace (skipn (Z.to_nat (Z.max (Z.of_nat (length v) + - w) 0)) v)
          with (lastn (Z.to_nat w) v) by (unfold lastn; f_equal; lia).
        rewrite length_lastn.
        destruct (Nat.ltb_spec (Nat.min (Z.to_nat w) (length v)) 10); [lia | reflexivity].
      * rewrite (lastn_all (Z.to_nat w) v) by lia.
        destruct (Nat.ltb_spec (length v) 10); [lia | reflexivity].
    + intros Hw. destruct (Z.ltb_spec w (Z.of_nat (length v))) as [Hgt | Hle]; [|lia].
      destruct (Z.ltb_spec (- w) 0); [|lia].
      rewrite length_skipn.
      destruct (Nat.ltb_spec
                  (length v - Z.to_nat (Z.max (Z.of_nat (length v) + - w) 0)) 10);
        [reflexivity | lia].
    + intros ->. cbn [Z.opp Z.ltb Z.compare Z.to_nat skipn].
      destruct (Z.ltb_spec 0 (Z.of_nat (length v))); [|lia].
      destruct (Nat.ltb_spec (length v) 10); [lia | reflexivity].
Qed.

Lemma analyzeChannel_window_witness :
  analyzeChannel eleven_packets (JFin 1) =
  Some (lastn (Z.to_nat 1500) (map voltage (buffer_of eleven_packets (JFin 1)))).
Proof.
  refine (proj1 (proj2 (proj2 (analyzeChannel_window eleven_packets (JFin 1)))
                   (buffer_of eleven_packets (JFin 1)) 1500 _ _ _) _).
  - vm_compute. reflexivity.
  - vm_compute. lia.
  - vm_compute. reflexivity.
  - lia.
Defined.

(* ================================================================== *)
(** ** More on the start sequence *)

Lemma find_snoc {A : Type} (f : A -> bool) (l : list A) (x : A) :
  find f (l ++ [x]) =
  match find f l with
  | Some y => Some y
  | None => if f x then Some x else None
  end.
Proof.
  induction l as [| y l IH]; cbn [app find]; [reflexivity|].
  destruct (f y); [reflexivity | exact IH].
Qed.

Lemma find_characteristics_rev (cs : list Characteristic) :
  find_characteristics cs =
  (find (fun c => includes (properties c) "notify") (rev cs),
   find (fun c => includes (properties c) "write"
                  || includes (properties c) "writeWithoutResponse") (rev cs)).
Proof.
  unfold find_characteristics.
  assert (H : forall a b : option Characteristic,
             fold_left
               (fun (found : option Characteristic * option Characteristic) char =>
                  (if includes (properties char) "notify" then Some char else fst found,
                   if includes (properties char) "write"
                      || includes (properties char) "writeWithoutResponse"
                   then Some char else snd found)) cs (a, b) =
             (match find (fun c => includes (properties c) "notify") (rev cs) with
              | Some c => Some c
              | None => a
              end,
              match find (fun c => includes (properties c) "write"
                                   || includes (properties c) "writeWithoutResponse")
                         (rev cs) with
              | Some c => Some c
              | None => b
              end)).
  { induction cs as [| c cs IH]; intros a b; [reflexivity|].
    cbn [fold_left rev fst snd]. rewrite IH, !find_snoc.
    destruct (find (fun c0 => includes (properties c0) "notify") (rev cs));
      destruct (find (fun c0 => includes (properties c0) "write"
                                || includes (properties c0) "writeWithoutResponse")
                     (rev cs));
      destruct (includes (properties c) "notify");
      destruct (includes (properties c) "write"
                || includes (properties c) "writeWithoutResponse");
      reflexivity. }
  rewrite H.
  destruct (find (fun c => includes (properties c) "notify") (rev cs));
    destruct (find (fun c => includes (properties c) "write"
                             || includes (properties c) "writeWithoutResponse")
                   (rev cs)); reflexivity.
Qed.

(** Of several characteristics with the property looked for, the last one
    discovered is taken: the notify characteristic is the last that has
    'notify', the write characteristic the last that has 'write' or
    'writeWithoutResponse'. *)
Theorem find_characteristics_last (cs : list Characteristic) :
  find_characteristics cs =
  (find (fun c => includes (properties c) "notify") (rev cs),
   find (fun c => includes (properties c) "write"
                  || includes (properties c) "writeWithoutResponse") (rev cs)).
Proof.
  apply find_characteristics_rev.
Qed.





(* ================================================================== *)
(** ** Scanning *)

Lemma find_same {A : Type} (f g : A -> bool) (l : list A) :
  (forall x, f x = g x) -> find f l = find g l.
Proof.
  intros H. induction l as [| x l IH]; cbn [find]; [reflexivity|].
  rewrite H, IH. reflexivity.
Qed.

(** [scanForDevice] resolves with the first peripheral discovered whose own
    local name, in lower case, contains "serenibrain", "th21a" or "eeg".  A
    peripheral without a name never passes (neither "Unknown" nor the empty
    string does), so the search at the timeout finds nothing that the
    discover handler had not found: when no named peripheral matches, the
    result is [undefined]. *)
Theorem scanForDevice_first_match (discovered : list Discovered) :
  scanForDevice discovered =
    find (fun p => match localName p with
                   | Some name => is_target_name name
                   | None => false
                   end) discovered /\
  (forall p, scanForDevice discovered = Some p ->
             In p discovered /\
             exists name, localName p = Some name /\ is_target_name name = true) /\
  (scanForDevice discovered = None ->
   forall p name, In p discovered -> localName p = Some name ->
                  is_target_name name = false).
Proof.
  assert (Hu : forall p, is_target_name (name_or "Unknown" p) =
                         match localName p with
                         | Some name => is_target_name name
                         | None => false
                         end).
  { intros p. unfold name_or. destruct (localName p) as [[| c r] |]; reflexivity. }
  assert (He : forall p, is_target_name (name_or "" p) =
                         match localName p with
                         | Some name => is_target_name name
                         | None => false
                         end).
  { intros p. unfold name_or. destruct (localName p) as [[| c r] |]; reflexivity. }
  assert (Hscan : scanForDevice discovered =
                  find (fun p => match localName p with
                                 | Some name => is_target_name name
                                 | None => false
                                 end) discovered).
  { unfold scanForDevice.
    rewrite (find_same _ _ discovered Hu), (find_same _ _ discovered He).
    destruct (find _ discovered); reflexivity. }
  split; [exact Hscan|]. rewrite Hscan. split.
  - intros p Hp. apply find_some in Hp. destruct Hp as [Hin Hm].
    split; [exact Hin|].
    destruct (localName p) as [name |]; [|discriminate].
    exists name. split; [reflexivity | exact Hm].
  - intros Hnone p name Hin Hname.
    pose proof (find_none _ _ Hnone p Hin) as H. cbn beta in H.
    rewrite Hname in H. exact H.
Qed.

Example scan_finds_headband :
  scanForDevice [mkDiscovered None "aa"; mkDiscovered (Some "Mi Band") "bb";
                 mkDiscovered (Some "TH21A-0042") "cc";
                 mkDiscovered (Some "SereniBrain") "dd"]%string =
  Some (mkDiscovered (Some "TH21A-0042") "cc")%string.
Proof. vm_compute. reflexivity. Qed.

Lemma scanForDevice_first_match_witness :
  In (mkDiscovered (Some "TH21A-0042") "cc")%string
     [mkDiscovered None "aa"; mkDiscovered (Some "TH21A-0042") "cc"]%string /\
  exists name,
    localName (mkDiscovered (Some "TH21A-0042") "cc")%string = Some name /\
    is_target_name name = true.
Proof.
  apply (proj1 (proj2 (scanForDevice_first_match
                         [mkDiscovered None "aa";
                          mkDiscovered (Some "TH21A-0042") "cc"]%string))).
  vm_compute. reflexivity.
Defined.
